(** * ccmon: entities, block window and auth interceptors

    A shallow embedding of the parts of ccmon whose specified behaviour is
    proved here:

    - [auth/interceptor.go]: the unary and streaming server interceptors and
      the client interceptor, over a model of gRPC metadata and contexts;
    - [entity/stats.go]: the [Stats] value object and its on-demand totals;
    - the statistics aggregation loop [GetStatsByPeriod];
    - [handler/tui/stats_renderer.go]: the clamp of the block progress bar;
    - the block window ([NextBlock]), the model classification ([IsBase]),
      the progress percentage and the plan usage percentage.

    Go's [int]/[int64] are integers in [Z] with the two's complement
    wrap-around written out; [float64] is Rocq's primitive binary64 float;
    Go strings are [string]s (sequences of bytes). *)

From Stdlib Require Import ZArith Lia Bool List Ascii String.
From Stdlib Require Import Floats.
From stdpp Require Import base option list strings pretty gmap.

Local Open Scope string_scope.
Local Open Scope Z_scope.

(* ================================================================== *)
(** * Go's machine integers, strings and floats *)
(* ================================================================== *)

Module goint.

(** Two's complement wrap-around to [w] bits. *)
Definition wrap (w : Z) (x : Z) : Z := (x + 2 ^ (w - 1)) mod 2 ^ w - 2 ^ (w - 1).

(** [int] and [int64] are 64 bits wide. *)
Definition wrap64 (x : Z) : Z := wrap 64 x.

Definition min_int64 : Z := - 2 ^ 63.
Definition max_int64 : Z := 2 ^ 63 - 1.

Definition in_int64 (x : Z) : Prop := min_int64 <= x <= max_int64.

Definition in_int64b (x : Z) : bool := (min_int64 <=? x) && (x <=? max_int64).

(** [a + b] on [int]/[int64]. *)
Definition add (a b : Z) : Z := wrap64 (a + b).

(** [n++]. *)
Definition incr (n : Z) : Z := add n 1.

End goint.

Module gostrings.

(** Lower-casing of the ASCII letters, byte by byte. *)
Definition lower_ascii (c : ascii) : ascii :=
  let n := nat_of_ascii c in
  if (Nat.leb 65 n && Nat.leb n 90)%bool then ascii_of_nat (n + 32) else c.

(** [strings.ToLower], on ASCII. *)
Fixpoint ToLower (s : string) : string :=
  match s with
  | EmptyString => EmptyString
  | String c r => String (lower_ascii c) (ToLower r)
  end.

(** [strings.HasPrefix(s, prefix)]. *)
Fixpoint HasPrefix (s prefix : string) : bool :=
  match prefix, s with
  | EmptyString, _ => true
  | String _ _, EmptyString => false
  | String p prefix', String c s' => Ascii.eqb p c && HasPrefix s' prefix'
  end.

(** [strings.Contains(s, substr)]. *)
Fixpoint Contains (s substr : string) : bool :=
  if HasPrefix s substr then true
  else match s with
       | EmptyString => false
       | String _ s' => Contains s' substr
       end.

(** Equality up to the case of ASCII letters ([strings.EqualFold]). *)
Definition EqualFold (a b : string) : Prop := ToLower a = ToLower b.

End gostrings.

Module gofloat.

(** [float64(n)] for an integer [n]: the nearest binary64 value, ties to
    even. *)
Definition of_int (n : Z) : float :=
  SF2Prim (binary_normalize prec emax n 0 false).

(** [int(f)]: the fractional part is dropped.  For a value outside
    [int64], an infinity or a NaN the result is the one of the amd64
    conversion instruction, the smallest [int64]. *)
Definition to_int (f : float) : Z :=
  match Prim2SF f with
  | S754_zero _ => 0
  | S754_finite s m e =>
      let mag := if 0 <=? e then Zpos m * 2 ^ e else Zpos m / 2 ^ (- e) in
      let v := if s then - mag else mag in
      if goint.in_int64b v then v else goint.min_int64
  | _ => goint.min_int64
  end.

End gofloat.

(* ================================================================== *)
(** * gRPC metadata, contexts and status (google.golang.org/grpc) *)
(* ================================================================== *)

Module grpc.
Import gostrings.

(** [codes.Code]: the status codes of gRPC, in their numeric order. *)
Inductive Code :=
| OK | Canceled | Unknown | InvalidArgument | DeadlineExceeded | NotFound
| AlreadyExists | PermissionDenied | ResourceExhausted | FailedPrecondition
| Aborted | OutOfRange | Unimplemented | Internal | Unavailable | DataLoss
| Unauthenticated.

(** [status.Error(c, msg)]: an error carrying a code and a message. *)
Record Status := Error { code : Code; message : string }.

(** [metadata.MD]: [map[string][]string]. *)
Abbreviation MD := (gmap string (list string)).

(** [md.Get(k)]: the values stored under the lower-cased key; a missing
    key gives the nil slice. *)
Definition Get (md : MD) (k : string) : list string :=
  default [] (md !! ToLower k).

(** [metadata.New(m)]: every key lower-cased, every value a one-element
    slice.  The argument is the Go map literal, as its list of pairs. *)
Definition New (m : list (string * string)) : MD :=
  fold_left
    (fun (md : MD) kv =>
       let key := ToLower (fst kv) in
       <[key := (default [] (md !! key) ++ [snd kv])%list]> md)
    m ∅.

(** The outgoing metadata of a context: the map installed by
    [NewOutgoingContext] and the key-value lists appended since by
    [AppendToOutgoingContext]. *)
Record rawMD := { md : MD; added : list (list string) }.

(** The part of [context.Context] the interceptors can observe: the
    metadata the call came with and the metadata it goes out with. *)
Record Context := {
  incoming : option MD;
  outgoing : option rawMD
}.

(** [metadata.FromIncomingContext(ctx)]: the metadata of the call, its keys
    in lower case as the transport delivers them, or none ([ok] false). *)
Definition FromIncomingContext (ctx : Context) : option MD := incoming ctx.

(** [metadata.NewOutgoingContext(ctx, md)]: a context whose outgoing
    metadata is [md]; whatever was attached or appended before is
    overwritten. *)
Definition NewOutgoingContext (ctx : Context) (m : MD) : Context :=
  {| incoming := incoming ctx;
     outgoing := Some {| md := m; added := [] |} |}.

(** Appending the pairs [k1; v1; k2; v2; ...] of one [added] entry. *)
Fixpoint append_pairs (m : MD) (kv : list string) : MD :=
  match kv with
  | k :: v :: rest =>
      let key := ToLower k in
      append_pairs (<[key := (default [] (m !! key) ++ [v])%list]> m) rest
  | _ => m
  end.

(** [metadata.FromOutgoingContext(ctx)]: the installed map merged with
    everything appended. *)
Definition FromOutgoingContext (ctx : Context) : option MD :=
  match outgoing ctx with
  | None => None
  | Some raw => Some (fold_left append_pairs (added raw) (md raw))
  end.

(** [metadata.AppendToOutgoingContext(ctx, kv...)]. *)
Definition AppendToOutgoingContext (ctx : Context) (kv : list string) : Context :=
  {| incoming := incoming ctx;
     outgoing :=
       match outgoing ctx with
       | None => Some {| md := ∅; added := [kv] |}
       | Some raw => Some {| md := md raw; added := (added raw ++ [kv])%list |}
       end |}.

End grpc.

(* ================================================================== *)
(** * auth/interceptor.go *)
(* ================================================================== *)

Module auth.
Import grpc.

(** Handlers and invokers are arbitrary Go functions: they may change the
    state of the process and they return a value or an error.  They are
    state-passing functions over a world [W]. *)
Section Interceptors.
Variable W : Type.
Variables Req Resp : Type.
(** [srv interface{}], [*grpc.UnaryServerInfo], [*grpc.StreamServerInfo],
    [*grpc.ClientConn], [grpc.CallOption]. *)
Variables Srv UnaryServerInfo StreamServerInfo ClientConn CallOption : Type.

(** [(interface{}, error)]: [(nil, err)] or [(resp, nil)]. *)
Inductive Result :=
| Ok (resp : Resp)
| Err (st : Status).

(** [grpc.ServerStream]: only [Context()] is used. *)
Record ServerStream := { StreamContext : Context }.

Definition UnaryHandler := Context -> Req -> W -> Result * W.
Definition StreamHandler := Srv -> ServerStream -> W -> option Status * W.
Definition UnaryInvoker :=
  Context -> string -> Req -> Resp -> ClientConn -> list CallOption ->
  W -> option Status * W.

(** [isValidAuth]: direct comparison of the raw values. *)
Definition isValidAuth (authHeader requiredToken : string) : bool :=
  String.eqb authHeader requiredToken.

Definition UnaryServerInterceptor (requiredToken : string)
    (ctx : Context) (req : Req) (info : UnaryServerInfo)
    (handler : UnaryHandler) (w : W) : Result * W :=
  if String.eqb requiredToken EmptyString then handler ctx req w
  else
    match FromIncomingContext ctx with
    | None => (Err (Error Unauthenticated "missing metadata"), w)
    | Some md =>
        let authValues := Get md "authorization" in
        if (length authValues =? 0)%nat
        then (Err (Error Unauthenticated "missing authorization header"), w)
        else
          let authHeader := nth 0 authValues EmptyString in
          if negb (isValidAuth authHeader requiredToken)
          then (Err (Error Unauthenticated "invalid authorization token"), w)
          else handler ctx req w
    end.

Definition StreamServerInterceptor (requiredToken : string)
    (srv : Srv) (ss : ServerStream) (info : StreamServerInfo)
    (handler : StreamHandler) (w : W) : option Status * W :=
  if String.eqb requiredToken EmptyString then handler srv ss w
  else
    match FromIncomingContext (StreamContext ss) with
    | None => (Some (Error Unauthenticated "missing metadata"), w)
    | Some md =>
        let authValues := Get md "authorization" in
        if (length authValues =? 0)%nat
        then (Some (Error Unauthenticated "missing authorization header"), w)
        else
          let authHeader := nth 0 authValues EmptyString in
          if negb (isValidAuth authHeader requiredToken)
          then (Some (Error Unauthenticated "invalid authorization token"), w)
          else handler srv ss w
    end.

Definition ClientInterceptor (token : string)
    (ctx : Context) (method : string) (req : Req) (reply : Resp)
    (cc : ClientConn) (invoker : UnaryInvoker) (opts : list CallOption)
    (w : W) : option Status * W :=
  if String.eqb token EmptyString then invoker ctx method req reply cc opts w
  else
    let md := New [("authorization", token)] in
    let ctx := NewOutgoingContext ctx md in
    invoker ctx method req reply cc opts w.

(** The call is refused with [codes.Unauthenticated] and the world is
    as it was: nothing of the handler has run. *)
Definition unary_rejected (r : Result * W) (w : W) : Prop :=
  exists msg, r = (Err (Error Unauthenticated msg), w).

Definition stream_rejected (r : option Status * W) (w : W) : Prop :=
  exists msg, r = (Some (Error Unauthenticated msg), w).

(** The value the server compares: the first one stored under
    "authorization" in the incoming metadata, if there is any. *)
Definition presented (ctx : Context) : option string :=
  match FromIncomingContext ctx with
  | None => None
  | Some md => head (Get md "authorization")
  end.

(** A handler that answers with a status no interceptor produces: whether
    it has run shows in the result. *)
Definition probe_unary : UnaryHandler :=
  fun _ _ w => (Err (Error OK "handled"), w).

Definition probe_stream : StreamHandler :=
  fun _ _ w => (Some (Error OK "handled"), w).

End Interceptors.

Arguments Ok {Resp} resp.
Arguments Err {Resp} st.
Arguments UnaryServerInterceptor {W Req Resp UnaryServerInfo}.
Arguments StreamServerInterceptor {W Srv StreamServerInfo}.
Arguments ClientInterceptor {W Req Resp ClientConn CallOption}.
Arguments unary_rejected {W Resp}.
Arguments stream_rejected {W}.
Arguments probe_unary {W Req Resp}.
Arguments probe_stream {W Srv}.

End auth.


(* ================================================================== *)
(** * Instants and durations (package time) *)
(* ================================================================== *)

Module gotime.

(** A [time.Time] is the number of nanoseconds since the Unix epoch; a
    [time.Duration] is a number of nanoseconds. *)
Definition Time := Z.
Definition Duration := Z.

Definition Nanosecond : Duration := 1.
Definition Second : Duration := 1000000000 * Nanosecond.
Definition Minute : Duration := 60 * Second.
Definition Hour : Duration := 60 * Minute.

(** Days from 1970-01-01 to the civil date [y]-[m]-[d] (proleptic
    Gregorian calendar). *)
Definition days_from_civil (y m d : Z) : Z :=
  let y' := if m <=? 2 then y - 1 else y in
  let era := y' / 400 in
  let yoe := y' - era * 400 in
  let mp := (m + 9) mod 12 in
  let doy := (153 * mp + 2) / 5 + d - 1 in
  let doe := yoe * 365 + yoe / 4 - yoe / 100 + doy in
  era * 146097 + doe - 719468.

(** [time.Date(year, month, day, hour, min, sec, nsec, time.UTC)]. *)
Definition Date (year month day hour min sec nsec : Z) : Time :=
  days_from_civil year month day * (24 * Hour)
  + hour * Hour + min * Minute + sec * Second + nsec.

(** [t.Add(d)], [t.Sub(u)], [t.Before(u)]. *)
Definition Add (t : Time) (d : Duration) : Time := t + d.
Definition Sub (t u : Time) : Duration := t - u.
Definition Before (t u : Time) : bool := t <? u.

End gotime.

(* ================================================================== *)
(** * package entity *)
(* ================================================================== *)

Module entity.
Import goint.

(** ** Token *)

(** Modelled from the spec: [entity/token.go] is not among the sources.
    Four counters (input, output, cache-read, cache-creation) of type
    [int64]; [Total] is the sum of all four, [Cache] is cache-read plus
    cache-creation, [Limited] is input plus output; tokens combine by
    component-wise addition. *)
Record Token := NewToken {
  input : Z;
  output : Z;
  cacheRead : Z;
  cacheCreation : Z
}.

Definition Token_Add (t other : Token) : Token :=
  NewToken (add (input t) (input other))
           (add (output t) (output other))
           (add (cacheRead t) (cacheRead other))
           (add (cacheCreation t) (cacheCreation other)).

Definition Token_Total (t : Token) : Z :=
  add (add (add (input t) (output t)) (cacheRead t)) (cacheCreation t).

Definition Token_Cache (t : Token) : Z := add (cacheRead t) (cacheCreation t).

Definition Token_Limited (t : Token) : Z := add (input t) (output t).

(** ** Cost *)

(** Modelled from the spec: [entity/cost.go] is not among the sources.
    A monetary amount, a [float64]; costs combine by addition. *)
Record Cost := NewCost { amount : float }.

Definition Cost_Amount (c : Cost) : float := amount c.

Definition Cost_Add (c other : Cost) : Cost :=
  NewCost (amount c + amount other)%float.

(** ** Model *)

(** Modelled from the spec: [entity/model.go] is not among the sources.
    A model is its name; it is base iff the name contains "haiku",
    whatever the case of its letters, and premium otherwise. *)
Definition Model := string.

Definition IsBase (m : Model) : bool :=
  gostrings.Contains (gostrings.ToLower m) "haiku".

Definition IsPremium (m : Model) : bool := negb (IsBase m).

(** ** Period *)

(** The half-open interval [[startAt, endAt)]. *)
Record Period := NewPeriod {
  period_startAt : gotime.Time;
  period_endAt : gotime.Time
}.

(** ** APIRequest *)

(** [NewAPIRequest(sessionID, timestamp, model, tokens, cost, durationMS)]
    as the tests call it. *)
Record APIRequest := NewAPIRequest {
  sessionID : string;
  timestamp : gotime.Time;
  model : Model;
  tokens : Token;
  cost : Cost;
  durationMS : Z
}.

(** ** Stats (entity/stats.go) *)

Record Stats := mkStats {
  baseRequests : Z;
  premiumRequests : Z;
  baseTokens : Token;
  premiumTokens : Token;
  baseCost : Cost;
  premiumCost : Cost;
  period : Period
}.

Definition BaseRequests (s : Stats) : Z := baseRequests s.
Definition PremiumRequests (s : Stats) : Z := premiumRequests s.
Definition BaseTokens (s : Stats) : Token := baseTokens s.
Definition PremiumTokens (s : Stats) : Token := premiumTokens s.
Definition BaseCost (s : Stats) : Cost := baseCost s.
Definition PremiumCost (s : Stats) : Cost := premiumCost s.

Definition TotalRequests (s : Stats) : Z :=
  add (baseRequests s) (premiumRequests s).

Definition TotalTokens (s : Stats) : Token :=
  Token_Add (baseTokens s) (premiumTokens s).

Definition TotalCost (s : Stats) : Cost :=
  Cost_Add (baseCost s) (premiumCost s).

Definition Stats_Period (s : Stats) : Period := period s.

Definition NewStats (baseRequests premiumRequests : Z)
    (baseTokens premiumTokens : Token) (baseCost premiumCost : Cost)
    (period : Period) : Stats :=
  mkStats baseRequests premiumRequests baseTokens premiumTokens
          baseCost premiumCost period.

(** ** Plan *)

(** Modelled from the spec: [entity/plan.go] is not among the sources.
    A named subscription tier with an associated price, built by
    [NewPlan(name, price)] as the tests do; the tier named "unset" is the
    sentinel. *)
Record Plan := NewPlan {
  plan_name : string;
  plan_price : Cost
}.

Definition Plan_Name (p : Plan) : string := plan_name p.
Definition Plan_Price (p : Plan) : Cost := plan_price p.

(** The sentinel, as the tests build it:
    [entity.NewPlan("unset", entity.NewCost(0))]. *)
Definition UnsetPlan : Plan := NewPlan "unset" (NewCost 0%float).

Definition IsUnset (p : Plan) : bool := String.eqb (plan_name p) "unset".

(** ** Block *)

(** The usage-limit window lasts five hours. *)
Definition TimeBlockDuration : gotime.Duration := 5 * gotime.Hour.

(** Modelled from the spec: [entity/block.go] is not among the sources.
    A block is its start instant and the token limit it is tracked
    against ([NewBlock(startAt)] has no limit). *)
Record Block := mkBlock {
  block_startAt : gotime.Time;
  tokenLimit : Z
}.

Definition NewBlock (startAt : gotime.Time) : Block := mkBlock startAt 0.

Definition NewBlockWithLimit (startAt : gotime.Time) (limit : Z) : Block :=
  mkBlock startAt limit.

Definition StartAt (b : Block) : gotime.Time := block_startAt b.

Definition EndAt (b : Block) : gotime.Time :=
  gotime.Add (block_startAt b) TimeBlockDuration.

Definition TokenLimit (b : Block) : Z := tokenLimit b.

Definition HasLimit (b : Block) : bool := 0 <? tokenLimit b.

Definition Block_Period (b : Block) : Period := NewPeriod (StartAt b) (EndAt b).

(** Modelled from the spec: [NextBlock] of [entity/block.go], which is not
    among the sources.  Inside [[startAt, startAt+duration)] the block is
    returned as it is.  Otherwise the number [k] of whole durations between
    [startAt] and [now] is the floor of the elapsed time by the duration,
    a non-negative count, and the result starts at [startAt + k*duration]:
    one closed-form step, no iteration. *)
Definition NextBlock (b : Block) (now : gotime.Time) : Block :=
  if negb (gotime.Before now (StartAt b)) && gotime.Before now (EndAt b)
  then b
  else
    let elapsed := gotime.Sub now (StartAt b) in
    let k := Z.max 0 (elapsed / TimeBlockDuration) in
    mkBlock (gotime.Add (StartAt b) (k * TimeBlockDuration)) (tokenLimit b).

(** Modelled from the spec: [CalculateProgress] of [entity/block.go], which
    is not among the sources: the tokens counted against the limit, by the
    limit, times 100, as a [float64]; nothing is clamped here. *)
Definition CalculateProgress (b : Block) (tokens : Token) : float :=
  (gofloat.of_int (Token_Limited tokens) / gofloat.of_int (tokenLimit b) * 100)%float.

End entity.

(* ================================================================== *)
(** * The statistics repository of the tests (auth/interceptor_test.go) *)
(* ================================================================== *)

Module repository.
Import goint entity.

(** The six local variables of the loop of [GetStatsByPeriod]. *)
Record locals := mkLocals {
  l_baseTokens : Token;
  l_premiumTokens : Token;
  l_baseCost : Cost;
  l_premiumCost : Cost;
  l_baseRequests : Z;
  l_premiumRequests : Z
}.

Definition locals_init : locals :=
  mkLocals (NewToken 0 0 0 0) (NewToken 0 0 0 0)
           (NewCost 0%float) (NewCost 0%float) 0 0.

(** One iteration of [for _, req := range requests]. *)
Definition loop_body (l : locals) (req : APIRequest) : locals :=
  if IsBase (model req) then
    mkLocals (Token_Add (l_baseTokens l) (tokens req)) (l_premiumTokens l)
             (Cost_Add (l_baseCost l) (cost req)) (l_premiumCost l)
             (incr (l_baseRequests l)) (l_premiumRequests l)
  else
    mkLocals (l_baseTokens l) (Token_Add (l_premiumTokens l) (tokens req))
             (l_baseCost l) (Cost_Add (l_premiumCost l) (cost req))
             (l_baseRequests l) (incr (l_premiumRequests l)).

(** [GetStatsByPeriod(period)] over the requests held by the repository. *)
Definition GetStatsByPeriod (requests : list APIRequest) (period : Period) : Stats :=
  let l := fold_left loop_body requests locals_init in
  NewStats (l_baseRequests l) (l_premiumRequests l)
           (l_baseTokens l) (l_premiumTokens l)
           (l_baseCost l) (l_premiumCost l) period.

(** The words of the specification: the requests of one tier are counted
    and their tokens and costs summed, in the order they were stored. *)
Definition requests_of (base : bool) (requests : list APIRequest) : list APIRequest :=
  List.filter (fun r => Bool.eqb (IsBase (model r)) base) requests.

Definition count_requests (requests : list APIRequest) : Z :=
  wrap64 (Z.of_nat (length requests)).


Definition sum_tokens (requests : list APIRequest) : Token :=
  fold_left (fun t r => Token_Add t (tokens r)) requests (NewToken 0 0 0 0).

Definition sum_costs (requests : list APIRequest) : Cost :=
  fold_left (fun c r => Cost_Add c (cost r)) requests (NewCost 0%float).

End repository.

(* ================================================================== *)
(** * handler/tui/stats_renderer.go *)
(* ================================================================== *)

Module tui.
Import entity.

(** The percentage [renderBlockProgress] hands to [RenderProgressBar] and
    prints: the progress of the block over the premium tokens, replaced
    by 100 when it is greater than 100. *)
Definition renderBlockProgress_percentage (block : Block) (blockStats : Stats) : float :=
  let percentage := CalculateProgress block (PremiumTokens blockStats) in
  if (100 <? percentage)%float then 100%float else percentage.

End tui.

(* ================================================================== *)
(** * The plan usage variables of the format query (handler/cli) *)
(* ================================================================== *)

Module cli.
Import entity.

(** [calculateExpectedDailyUsage] of [handler/cli/integration_test.go],
    with the number of days of the current month as an argument: the
    daily cost against the price of the plan spread over the month, as a
    whole percentage. *)
Definition calculateExpectedDailyUsage (dailyCost planPrice : float) (daysInMonth : Z) : Z :=
  let dailyBudget := (planPrice / gofloat.of_int daysInMonth)%float in
  gofloat.to_int (dailyCost / dailyBudget * 100)%float.

(** The monthly cost against the price of the plan, as a whole
    percentage ("$155.0 / $100.0 = 155%", "77.5% -> 77%"). *)
Definition calculateExpectedMonthlyUsage (monthlyCost planPrice : float) : Z :=
  gofloat.to_int (monthlyCost / planPrice * 100)%float.

(** Modelled from the spec: the usage variables query of the use-case
    layer is not among the sources.  The sentinel tier "unset" always
    yields zero; any other plan yields the percentage the tests expect. *)
Definition DailyPlanUsage (plan : Plan) (daily : Stats) (daysInMonth : Z) : Z :=
  if IsUnset plan then 0
  else calculateExpectedDailyUsage (Cost_Amount (TotalCost daily))
                                   (Cost_Amount (Plan_Price plan)) daysInMonth.

Definition MonthlyPlanUsage (plan : Plan) (monthly : Stats) : Z :=
  if IsUnset plan then 0
  else calculateExpectedMonthlyUsage (Cost_Amount (TotalCost monthly))
                                     (Cost_Amount (Plan_Price plan)).

End cli.

(* ================================================================== *)
(** * Sample data of the tests *)
(* ================================================================== *)

Module samples.
Import grpc auth.

(** The tokens of [auth/interceptor_test.go]. *)
Definition serverToken : string := "Bearer test-secret-token".
Definition wrongToken : string := "Bearer wrong-token".

(** A server-side context whose incoming metadata holds [values] under
    "authorization". *)
Definition incoming_with (values : list string) : Context :=
  {| incoming := Some {["authorization" := values]}; outgoing := None |}.

(** A server-side context with metadata but no "authorization" key. *)
Definition incoming_without : Context :=
  {| incoming := Some {["user-agent" := ["grpc-go"]]}; outgoing := None |}.

(** A context without incoming metadata. *)
Definition no_metadata : Context := {| incoming := None; outgoing := None |}.

(** A client-side context that already carries outgoing metadata, some
    installed and some appended. *)
Definition busy_client : Context :=
  AppendToOutgoingContext
    (NewOutgoingContext no_metadata {["x-request-id" := ["42"]]})
    ["x-trace"; "on"].

(** The world counts the calls that reached a handler or an invoker. *)
Definition counting_unary : UnaryHandler nat unit unit :=
  fun _ _ n => (Ok tt, S n).

Definition counting_stream : StreamHandler nat unit :=
  fun _ _ n => (None, S n).

(** The invoker records the outgoing metadata it is called with. *)
Definition recording_invoker : UnaryInvoker (option MD) unit unit unit unit :=
  fun ctx _ _ _ _ _ _ => (None, FromOutgoingContext ctx).

(** The two requests of the model classification example: one base
    request (tokens 200/160/0/0, cost 0.01) and one premium request
    (tokens 666/500/0/0, cost 0.02), with the model names, the timestamp
    and the duration of [createTestAPIRequests]. *)
Definition cost_0_01 : float := 0x1.47ae147ae147bp-7%float.
Definition cost_0_02 : float := 0x1.47ae147ae147bp-6%float.
Definition cost_0_03 : float := 0x1.eb851eb851eb8p-6%float.

Definition today : gotime.Time := gotime.Date 2025 1 1 12 0 0 0.

Definition todayPeriod : entity.Period :=
  entity.NewPeriod (gotime.Date 2025 1 1 0 0 0 0) (gotime.Date 2025 1 2 0 0 0 0).

Definition baseRequest : entity.APIRequest :=
  entity.NewAPIRequest "daily-base-0" today "claude-3-haiku-20240307"
    (entity.NewToken 200 160 0 0) (entity.NewCost cost_0_01) 1000.

Definition premiumRequest : entity.APIRequest :=
  entity.NewAPIRequest "daily-premium-0" today "claude-3-5-sonnet-20241022"
    (entity.NewToken 666 500 0 0) (entity.NewCost cost_0_02) 1000.

(** [createTestAPIRequestsForCurrentDate] of
    [handler/cli/integration_test.go]; [today] and [monthStart] are the
    noon of the current day and of the first day of the month. *)
Definition createTestAPIRequestsForCurrentDate
    (dailyBaseRequests dailyPremiumRequests
     monthlyBaseRequests monthlyPremiumRequests : nat)
    (dailyBaseCost dailyPremiumCost monthlyBaseCost monthlyPremiumCost : float)
    (today monthStart : gotime.Time) : list entity.APIRequest :=
  let count n := gofloat.of_int (Z.of_nat n) in
  (map (fun i =>
          entity.NewAPIRequest ("daily-base-" ++ pretty i) today
            "claude-3-haiku-20240307" (entity.NewToken 200 160 0 0)
            (entity.NewCost (dailyBaseCost / count dailyBaseRequests)%float) 1000)
       (seq 0 dailyBaseRequests)
   ++ map (fun i =>
          entity.NewAPIRequest ("daily-premium-" ++ pretty i) today
            "claude-3-5-sonnet-20241022" (entity.NewToken 666 500 0 0)
            (entity.NewCost (dailyPremiumCost / count dailyPremiumRequests)%float) 1000)
       (seq 0 dailyPremiumRequests)
   ++ map (fun i =>
          entity.NewAPIRequest ("monthly-base-" ++ pretty i)
            (gotime.Add monthStart (Z.of_nat i * gotime.Hour))
            "claude-3-haiku-20240307" (entity.NewToken 200 160 0 0)
            (entity.NewCost (monthlyBaseCost / count monthlyBaseRequests)%float) 1000)
       (seq 0 monthlyBaseRequests)
   ++ map (fun i =>
          entity.NewAPIRequest ("monthly-premium-" ++ pretty i)
            (gotime.Add monthStart (Z.of_nat i * gotime.Hour))
            "claude-3-5-sonnet-20241022" (entity.NewToken 666 500 0 0)
            (entity.NewCost (monthlyPremiumCost / count monthlyPremiumRequests)%float) 1000)
       (seq 0 monthlyPremiumRequests))%list.

(** The requests of [TestFormatQueryEndToEnd]:
    [createTestAPIRequests(3, 2, 10, 5, 5.0, 10.0, 50.0, 90.0)], for a day
    in the middle of a month. *)
Definition monthRequests : list entity.APIRequest :=
  createTestAPIRequestsForCurrentDate 3 2 10 5 5 10 50 90
    (gotime.Date 2025 1 15 12 0 0 0) (gotime.Date 2025 1 1 12 0 0 0).

(** Those of them that fall in the current day. *)
Definition dayRequests : list entity.APIRequest :=
  List.filter (fun r => gotime.Date 2025 1 15 0 0 0 0 <=? entity.timestamp r)
              monthRequests.

Definition monthPeriod : entity.Period :=
  entity.NewPeriod (gotime.Date 2025 1 1 0 0 0 0) (gotime.Date 2025 2 1 0 0 0 0).

Definition dayPeriod : entity.Period :=
  entity.NewPeriod (gotime.Date 2025 1 15 0 0 0 0) (gotime.Date 2025 1 16 0 0 0 0).

(** The plans of the tests. *)
Definition proPlan : entity.Plan := entity.NewPlan "pro" (entity.NewCost 20).
Definition maxPlan : entity.Plan := entity.NewPlan "max" (entity.NewCost 100).
Definition max20Plan : entity.Plan := entity.NewPlan "max20" (entity.NewCost 200).

End samples.

(* ================================================================== *)
(** * More of the Go runtime: panics, subtraction, strings.Repeat *)
(* ================================================================== *)

Module goruntime.

(** A computation that may panic: [None] is the panic. *)
Definition Panics (A : Type) : Type := option A.

(** [a - b] on [int]. *)
Definition sub (a b : Z) : Z := goint.wrap64 (a - b).

(** The line feed. *)
Definition nl : string := String (ascii_of_nat 10) EmptyString.

(** [count] copies of [s], one after the other. *)
Fixpoint copies (s : string) (count : nat) : string :=
  match count with
  | O => EmptyString
  | S n => s ++ copies s n
  end.

(** [strings.Repeat(s, count)]: it panics when [count] is negative and when
    the length of the result does not fit an [int]. *)
Definition Repeat (s : string) (count : Z) : Panics string :=
  if count <? 0 then None
  else if goint.max_int64 <? Z.of_nat (String.length s) * count then None
  else Some (copies s (Z.to_nat count)).

(** [xs[i]]: it panics when the index is out of range. *)
Definition index {A : Type} (xs : list A) (i : nat) : Panics A := xs !! i.

(** [t.Sub(u)] as Go computes it: the difference, kept within the largest
    and the smallest [time.Duration]. *)
Definition SubSaturating (t u : gotime.Time) : gotime.Duration :=
  Z.max goint.min_int64 (Z.min goint.max_int64 (t - u)).

(** [d.Hours()]: the whole hours plus the rest as a fraction of an hour;
    the division and the remainder of Go truncate towards zero. *)
Definition Hours (d : gotime.Duration) : float :=
  let hour := Z.quot d gotime.Hour in
  let nsec := Z.rem d gotime.Hour in
  (gofloat.of_int hour + gofloat.of_int nsec / 3600000000000)%float.

End goruntime.

(* ================================================================== *)
(** * The repository of the tests (auth/interceptor_test.go) *)
(* ================================================================== *)

Module mock.
Import entity.

(** [mockAuthTestRepository]: the requests saved so far. *)
Record mockAuthTestRepository := { requests : list APIRequest }.

(** A Go [error]; [None] is [nil]. *)
Definition error := option string.

(** [Save]: the request goes to the end of the slice; no error. *)
Definition Save (m : mockAuthTestRepository) (req : APIRequest)
  : mockAuthTestRepository * error :=
  ({| requests := (requests m ++ [req])%list |}, None).

(** [FindByPeriodWithLimit]: all the requests, whatever the period, the
    limit and the offset. *)
Definition FindByPeriodWithLimit (m : mockAuthTestRepository)
    (period : Period) (limit offset : Z) : list APIRequest * error :=
  (requests m, None).

Definition FindAll (m : mockAuthTestRepository) : list APIRequest * error :=
  (requests m, None).

(** [DeleteOlderThan]: nothing is deleted. *)
Definition DeleteOlderThan (m : mockAuthTestRepository) (cutoffTime : gotime.Time)
  : mockAuthTestRepository * (Z * error) :=
  (m, (0, None)).

(** [mockAuthStatsRepository.GetStatsByPeriod], over the repository it
    points to. *)
Definition GetStatsByPeriod (repo : mockAuthTestRepository) (period : Period)
  : Stats * error :=
  (repository.GetStatsByPeriod (requests repo) period, None).

End mock.

(* ================================================================== *)
(** * handler/tui/stats_renderer.go, the whole file *)
(* ================================================================== *)

Module render.
Import goruntime entity.

(** What the renderer uses and this file does not define: the styles, the
    formatting helpers of the package, the formatting verbs of [fmt] for
    numbers, and [FormatBlockTime] of the block.  They are taken as they
    come, as functions that return. *)
Record Helpers (Location : Type) := {
  HeaderStyle_Render : string -> string;
  TableHeaderStyle_Render : string -> string;
  BaseStyle_Render : string -> string;
  BaseStyle_Bold_Render : string -> string;
  PremiumStyle_Render : string -> string;
  PremiumStyle_Bold_Render : string -> string;
  StatStyle_Render : string -> string;
  StatStyle_Bold_Render : string -> string;
  HelpStyle_Render : string -> string;
  PadRight : string -> Z -> string;
  CalculateStatsColumnWidths : Z -> list Z;
  FormatTokenCount : Z -> string;
  RenderProgressBar : float -> Z -> string;
  FormatDurationFromTime : gotime.Duration -> string;
  FormatBlockTime : Block -> Location -> string;
  (** [fmt.Sprintf("%d", n)] and [fmt.Sprintf("%.Nf", x)]. *)
  Sprintf_d : Z -> string;
  Sprintf_f : nat -> float -> string
}.

Arguments HeaderStyle_Render {Location}.
Arguments TableHeaderStyle_Render {Location}.
Arguments BaseStyle_Render {Location}.
Arguments BaseStyle_Bold_Render {Location}.
Arguments PremiumStyle_Render {Location}.
Arguments PremiumStyle_Bold_Render {Location}.
Arguments StatStyle_Render {Location}.
Arguments StatStyle_Bold_Render {Location}.
Arguments HelpStyle_Render {Location}.
Arguments PadRight {Location}.
Arguments CalculateStatsColumnWidths {Location}.
Arguments FormatTokenCount {Location}.
Arguments RenderProgressBar {Location}.
Arguments FormatDurationFromTime {Location}.
Arguments FormatBlockTime {Location}.
Arguments Sprintf_d {Location}.
Arguments Sprintf_f {Location}.

(** [ViewModel] through its getters; [Block()] is a pointer and may be
    [nil]. *)
Record ViewModel (Location : Type) := {
  vm_Stats : Stats;
  vm_Block : option Block;
  vm_BlockStats : Stats;
  vm_Timezone : Location
}.

Arguments vm_Stats {Location}.
Arguments vm_Block {Location}.
Arguments vm_BlockStats {Location}.
Arguments vm_Timezone {Location}.

Section Renderer.
Context {Location : Type}.
Variable H : Helpers Location.

(** The time left in the block, the local [timeRemaining] of
    [renderBlockProgress]: zero unless [now] is before the end. *)
Definition timeRemaining (block : Block) (now : gotime.Time) : gotime.Duration :=
  if gotime.Before now (EndAt block)
  then SubSaturating (EndAt block) now
  else 0.

(** [renderBlockProgress]; [now] is [time.Now().UTC()].  The first use of
    [vm.Block()] dereferences it. *)
Definition renderBlockProgress (vm : ViewModel Location) (now : gotime.Time)
  : Panics string :=
  let blockStats := vm_BlockStats vm in
  block ← vm_Block vm;
  let percentage := tui.renderBlockProgress_percentage block blockStats in
  let timeRemaining := timeRemaining block now in
  let blockTime :=
    match vm_Block vm with
    | Some b => FormatBlockTime H b (vm_Timezone vm)
    | None => EmptyString
    end in
  let used := Token_Limited (PremiumTokens blockStats) in
  let limit := TokenLimit block in
  Some (HeaderStyle_Render H ("Block Progress (" ++ blockTime ++ ")")
        ++ nl ++ nl
        ++ RenderProgressBar H percentage 40
        ++ " "
        ++ StatStyle_Render H
             (Sprintf_f H 1 percentage ++ "% (" ++ FormatTokenCount H used
              ++ "/" ++ FormatTokenCount H limit ++ " tokens)")
        ++ nl
        ++ (if 0 <? timeRemaining
            then HelpStyle_Render H
                   ("Time remaining: " ++ FormatDurationFromTime H timeRemaining)
            else HelpStyle_Render H "Block expired")).

(** The end of both layouts: the progress of the block when there is a
    block with a limit, a hint when there is no block, nothing for a
    block without limit. *)
Definition blockSection (vm : ViewModel Location) (now : gotime.Time)
  : Panics string :=
  match vm_Block vm with
  | Some block =>
      if HasLimit block
      then progress ← renderBlockProgress vm now;
           Some (nl ++ nl ++ progress)
      else Some EmptyString
  | None =>
      Some (nl ++ nl ++ HelpStyle_Render H "Use -b 5am to track token limits")
  end.

(** [renderCompactStats]. *)
Definition renderCompactStats (vm : ViewModel Location) (now : gotime.Time)
  : Panics string :=
  let stats := vm_Stats vm in
  let b :=
    HeaderStyle_Render H "Usage Statistics" ++ nl ++ nl
    ++ StatStyle_Render H "Total Requests: "
    ++ (Sprintf_d H (TotalRequests stats) ++ nl)
    ++ StatStyle_Render H "Total Tokens: "
    ++ (FormatTokenCount H (Token_Total (TotalTokens stats)) ++ nl)
    ++ StatStyle_Render H "Total Cost: "
    ++ ("$" ++ Sprintf_f H 6 (Cost_Amount (TotalCost stats)) ++ nl)
    ++ nl
    ++ BaseStyle_Render H "Base: "
    ++ (Sprintf_d H (BaseRequests stats) ++ " reqs, "
        ++ FormatTokenCount H (Token_Total (BaseTokens stats)) ++ " tokens, $"
        ++ Sprintf_f H 6 (Cost_Amount (BaseCost stats)) ++ nl)
    ++ PremiumStyle_Render H "Premium: "
    ++ (Sprintf_d H (PremiumRequests stats) ++ " reqs, "
        ++ FormatTokenCount H (Token_Total (PremiumTokens stats)) ++ " tokens, $"
        ++ Sprintf_f H 6 (Cost_Amount (PremiumCost stats))) in
  match vm_Block vm with
  | Some block =>
      if HasLimit block
      then progress ← renderBlockProgress vm now;
           Some (b ++ nl ++ nl ++ progress)
      else Some b
  | None =>
      Some (b ++ nl ++ nl ++ HelpStyle_Render H "Use -b 5am to track token limits")
  end.

(** One row of the table: [for i, cell := range row], the cell [i] padded
    to [colWidths[i]]; the first cell is styled by [first], the others by
    [other]. *)
Fixpoint writeRow (first other : string -> string) (colWidths : list Z)
    (i : nat) (row : list string) : Panics string :=
  match row with
  | [] => Some EmptyString
  | cell :: rest =>
      width ← index colWidths i;
      let padded := PadRight H cell width in
      written ← writeRow first other colWidths (S i) rest;
      Some ((if (i =? 0)%nat then first padded else other padded) ++ written)
  end.

(** The separator line: [for _, width := range colWidths]. *)
Fixpoint separator (colWidths : list Z) : Panics string :=
  match colWidths with
  | [] => Some EmptyString
  | width :: rest =>
      line ← Repeat "─" width;
      written ← separator rest;
      Some (line ++ written)
  end.

(** The cells of the row of one tier. *)
Definition tierRow (label : string) (requests : Z) (tokens : Token) (cost : Cost)
  : list string :=
  [ label;
    Sprintf_d H requests;
    FormatTokenCount H (Token_Limited tokens);
    FormatTokenCount H (Token_Cache tokens);
    FormatTokenCount H (Token_Total tokens);
    Sprintf_f H 6 (Cost_Amount cost) ].

(** [renderStats]. *)
Definition renderStats (vm : ViewModel Location) (width : Z) (now : gotime.Time)
  : Panics string :=
  let b0 := HeaderStyle_Render H "Usage Statistics" ++ nl ++ nl in
  let availableWidth := sub width 6 in
  if availableWidth <? 60 then renderCompactStats vm now
  else
    let headers := ["Model Tier"; "Reqs"; "Limited"; "Cache"; "Total"; "Cost ($)"] in
    let colWidths := CalculateStatsColumnWidths H availableWidth in
    headerRow ← writeRow (TableHeaderStyle_Render H) (TableHeaderStyle_Render H)
                  colWidths 0 headers;
    line1 ← separator colWidths;
    let stats := vm_Stats vm in
    baseRow ← writeRow (fun cell => cell) (BaseStyle_Render H) colWidths 0
                (tierRow (BaseStyle_Bold_Render H "Base (Haiku)")
                   (BaseRequests stats) (BaseTokens stats) (BaseCost stats));
    premiumRow ← writeRow (fun cell => cell) (PremiumStyle_Render H) colWidths 0
                   (tierRow (PremiumStyle_Bold_Render H "Premium (S/O)")
                      (PremiumRequests stats) (PremiumTokens stats)
                      (PremiumCost stats));
    line2 ← separator colWidths;
    totalRow ← writeRow (fun cell => cell) (StatStyle_Render H) colWidths 0
                 (tierRow (StatStyle_Bold_Render H "Total")
                    (TotalRequests stats) (TotalTokens stats) (TotalCost stats));
    let b := b0 ++ headerRow ++ nl ++ line1 ++ nl ++ baseRow ++ nl
             ++ premiumRow ++ nl ++ line2 ++ nl ++ totalRow in
    match vm_Block vm with
    | Some block =>
        if HasLimit block
        then progress ← renderBlockProgress vm now;
             Some (b ++ nl ++ nl ++ progress)
        else Some b
    | None =>
        Some (b ++ nl ++ nl ++ HelpStyle_Render H "Use -b 5am to track token limits")
    end.

(** Column widths [renderStats] can use: at least six of them, each one a
    count [strings.Repeat] accepts for the three bytes of the line
    character. *)
Definition usable_widths (colWidths : list Z) : Prop :=
  (6 <= length colWidths)%nat /\
  Forall (fun width => 0 <= width /\ 3 * width <= goint.max_int64) colWidths.

End Renderer.

End render.

(* ================================================================== *)
(** * The helpers of handler/cli/integration_test.go *)
(* ================================================================== *)

Module clitest.
Import goruntime.

(** The number of days of the month of [now], as the first lines of
    [calculateExpectedDailyUsage] compute it from the year and the month
    of [time.Now()]: the hours from the first day of the month to the
    first day of the next, by 24. *)
Definition daysInMonth (year month : Z) : Z :=
  let nextMonth := gotime.Date year (month + 1) 1 0 0 0 0 in
  let thisMonth := gotime.Date year month 1 0 0 0 0 in
  gofloat.to_int (Hours (SubSaturating nextMonth thisMonth) / 24)%float.

(** The leap years and the lengths of the months of the Gregorian
    calendar. *)
Definition leap_year (year : Z) : bool :=
  (year mod 4 =? 0) && (negb (year mod 100 =? 0) || (year mod 400 =? 0)).

Definition days_of_month (year month : Z) : Z :=
  if month =? 2 then (if leap_year year then 29 else 28)
  else if (month =? 4) || (month =? 6) || (month =? 9) || (month =? 11) then 30
  else 31.

End clitest.

(* ================================================================== *)
(** * Sample data for the renderer *)
(* ================================================================== *)

Module samples_render.
Import goruntime entity render.

(** Plain helpers: no styling, cells padded with spaces, six fixed
    columns, numbers in decimal, durations in minutes. *)
Definition plainHelpers : Helpers unit :=
  {| HeaderStyle_Render := fun s => s;
     TableHeaderStyle_Render := fun s => s;
     BaseStyle_Render := fun s => s;
     BaseStyle_Bold_Render := fun s => s;
     PremiumStyle_Render := fun s => s;
     PremiumStyle_Bold_Render := fun s => s;
     StatStyle_Render := fun s => s;
     StatStyle_Bold_Render := fun s => s;
     HelpStyle_Render := fun s => s;
     PadRight := fun s width =>
       s ++ copies " " (Z.to_nat (width - Z.of_nat (String.length s)));
     CalculateStatsColumnWidths := fun _ => [16; 8; 10; 10; 10; 12];
     FormatTokenCount := fun n => pretty n;
     RenderProgressBar := fun _ _ => "[bar]";
     FormatDurationFromTime := fun d => pretty (d / gotime.Minute) ++ "m";
     FormatBlockTime := fun _ _ => "10am - 3pm";
     Sprintf_d := fun n => pretty n;
     Sprintf_f := fun _ x => pretty (gofloat.to_int x) |}.

(** The block from 10:00 to 15:00 with the limit of the pro plan, and a
    view model showing it. *)
Definition morningBlock : Block :=
  NewBlockWithLimit (gotime.Date 2025 1 1 10 0 0 0) 7000.

Definition blockView : ViewModel unit :=
  {| vm_Stats := repository.GetStatsByPeriod
                   [samples.baseRequest; samples.premiumRequest] samples.todayPeriod;
     vm_Block := Some morningBlock;
     vm_BlockStats := repository.GetStatsByPeriod
                        [samples.premiumRequest] samples.todayPeriod;
     vm_Timezone := tt |}.

End samples_render.

(* ================================================================== *)
(** * Properties of the interceptors *)
(* ================================================================== *)

Section AuthProperties.
Import grpc auth.

Context {W Req Resp Srv USI SSI CC CO : Type}.

Implicit Types (ctx : Context) (md : MD) (T v : string) (w : W).

Lemma Get_authorization md : Get md "authorization" = default [] (md !! "authorization").
Proof. reflexivity. Qed.

Lemma presented_first ctx md v rest :
  incoming ctx = Some md -> md !! "authorization" = Some (v :: rest) ->
  presented ctx = Some v.
Proof.
  intros Hin Hmd. unfold presented, FromIncomingContext.
  rewrite Hin, Get_authorization, Hmd. reflexivity.
Qed.

Lemma presented_no_metadata ctx : incoming ctx = None -> presented ctx = None.
Proof. intros Hin. unfold presented, FromIncomingContext. now rewrite Hin. Qed.

Lemma presented_no_header ctx md :
  incoming ctx = Some md ->
  md !! "authorization" = None \/ md !! "authorization" = Some [] ->
  presented ctx = None.
Proof.
  intros Hin Hmd. unfold presented, FromIncomingContext.
  rewrite Hin, Get_authorization. destruct Hmd as [-> | ->]; reflexivity.
Qed.

Lemma presented_carries ctx T :
  presented ctx = Some T ->
  exists md rest, incoming ctx = Some md /\ md !! "authorization" = Some (T :: rest).
Proof.
  unfold presented, FromIncomingContext. destruct (incoming ctx) as [md|]; [|discriminate].
  rewrite Get_authorization. destruct (md !! "authorization") as [[|v rest]|] eqn:Hmd;
    simpl; try discriminate.
  intros [= ->]. eauto.
Qed.

Lemma isValidAuth_true v T : isValidAuth v T = true <-> v = T.
Proof. unfold isValidAuth. apply String.eqb_eq. Qed.

Lemma isValidAuth_false v T : isValidAuth v T = false <-> v <> T.
Proof. unfold isValidAuth. apply String.eqb_neq. Qed.

(** The unary interceptor with a token configured: either the presented
    value is the token and the call is the handler's, or it is not and the
    call is refused with the world untouched. *)
Lemma unary_decision T ctx (req : Req) (info : USI) (h : UnaryHandler W Req Resp) w :
  T <> EmptyString ->
  (presented ctx = Some T /\
   UnaryServerInterceptor T ctx req info h w = h ctx req w) \/
  (presented ctx <> Some T /\
   unary_rejected (UnaryServerInterceptor T ctx req info h w) w).
Proof.
  intros HT. apply String.eqb_neq in HT.
  unfold UnaryServerInterceptor, presented, unary_rejected. rewrite HT.
  destruct (FromIncomingContext ctx) as [md|].
  - destruct (Get md "authorization") as [|v rest]; simpl.
    + right. split; [discriminate | eauto].
    + destruct (isValidAuth v T) eqn:Hv; simpl.
      * left. apply isValidAuth_true in Hv. subst v. split; reflexivity.
      * right. apply isValidAuth_false in Hv.
        split; [intros [= ->]; now apply Hv | eauto].
  - right. split; [discriminate | eauto].
Qed.

Lemma stream_decision T (srv : Srv) (ss : ServerStream) (info : SSI)
    (h : StreamHandler W Srv) w :
  T <> EmptyString ->
  (presented (StreamContext ss) = Some T /\
   StreamServerInterceptor T srv ss info h w = h srv ss w) \/
  (presented (StreamContext ss) <> Some T /\
   stream_rejected (StreamServerInterceptor T srv ss info h w) w).
Proof.
  intros HT. apply String.eqb_neq in HT.
  unfold StreamServerInterceptor, presented, stream_rejected. rewrite HT.
  destruct (FromIncomingContext (StreamContext ss)) as [md|].
  - destruct (Get md "authorization") as [|v rest]; simpl.
    + right. split; [discriminate | eauto].
    + destruct (isValidAuth v T) eqn:Hv; simpl.
      * left. apply isValidAuth_true in Hv. subst v. split; reflexivity.
      * right. apply isValidAuth_false in Hv.
        split; [intros [= ->]; now apply Hv | eauto].
  - right. split; [discriminate | eauto].
Qed.

Lemma unary_accepts T ctx (req : Req) (info : USI) (h : UnaryHandler W Req Resp) w :
  T <> EmptyString -> presented ctx = Some T ->
  UnaryServerInterceptor T ctx req info h w = h ctx req w.
Proof.
  intros HT Hp. destruct (unary_decision T ctx req info h w HT) as [[_ H]|[H _]];
    [exact H | contradiction].
Qed.

Lemma unary_rejects T ctx (req : Req) (info : USI) (h : UnaryHandler W Req Resp) w :
  T <> EmptyString -> presented ctx <> Some T ->
  unary_rejected (UnaryServerInterceptor T ctx req info h w) w.
Proof.
  intros HT Hp. destruct (unary_decision T ctx req info h w HT) as [[H _]|[_ H]];
    [contradiction | exact H].
Qed.

Lemma stream_accepts T (srv : Srv) (ss : ServerStream) (info : SSI)
    (h : StreamHandler W Srv) w :
  T <> EmptyString -> presented (StreamContext ss) = Some T ->
  StreamServerInterceptor T srv ss info h w = h srv ss w.
Proof.
  intros HT Hp. destruct (stream_decision T srv ss info h w HT) as [[_ H]|[H _]];
    [exact H | contradiction].
Qed.

Lemma stream_rejects T (srv : Srv) (ss : ServerStream) (info : SSI)
    (h : StreamHandler W Srv) w :
  T <> EmptyString -> presented (StreamContext ss) <> Some T ->
  stream_rejected (StreamServerInterceptor T srv ss info h w) w.
Proof.
  intros HT Hp. destruct (stream_decision T srv ss info h w HT) as [[H _]|[_ H]];
    [contradiction | exact H].
Qed.

Lemma unary_rejected_not_probe ctx (req : Req) w r :
  unary_rejected r w -> r <> probe_unary (Resp:=Resp) ctx req w.
Proof. intros [msg ->]. unfold probe_unary. discriminate. Qed.

Lemma stream_rejected_not_probe (srv : Srv) (ss : ServerStream) w r :
  stream_rejected r w -> r <> probe_stream srv ss w.
Proof. intros [msg ->]. unfold probe_stream. discriminate. Qed.
Lemma New_authorization T :
  New [("authorization", T)] = {["authorization" := [T]]}.
Proof.
  unfold New. simpl. rewrite lookup_empty. simpl. apply insert_empty.
Qed.

Lemma FromOutgoing_NewOutgoing ctx md :
  FromOutgoingContext (NewOutgoingContext ctx md) = Some md.
Proof. reflexivity. Qed.

(** What the client interceptor does with a token configured. *)
Lemma client_installs T ctx method (req : Req) (reply : Resp) (cc : CC)
    (inv : UnaryInvoker W Req Resp CC CO) (opts : list CO) w :
  T <> EmptyString ->
  ClientInterceptor T ctx method req reply cc inv opts w
  = inv (NewOutgoingContext ctx {["authorization" := [T]]})
        method req reply cc opts w.
Proof.
  intros HT. apply String.eqb_neq in HT.
  unfold ClientInterceptor. rewrite HT, New_authorization. reflexivity.
Qed.

(** C2: with a non-empty token [T] configured, on the unary and on the
    streaming path, the handler runs only if the incoming metadata carries
    [T] itself under "authorization": then the call is the handler's.
    Without metadata, without the key (or with no value under it), or with
    a value that is not [T], the call fails with [Unauthenticated] and
    nothing of the handler has run (the world is unchanged, whatever the
    handler is).  The comparison is equality of the two strings. *)
Theorem server_requires_exact_token :
  forall T ctx (req : Req) (info : USI) (h : UnaryHandler W Req Resp)
         (srv : Srv) (ss : ServerStream) (sinfo : SSI) (sh : StreamHandler W Srv) w,
    T <> EmptyString ->
    (* unary path *)
    ((forall md rest, incoming ctx = Some md ->
        md !! "authorization" = Some (T :: rest) ->
        UnaryServerInterceptor T ctx req info h w = h ctx req w) /\
     (incoming ctx = None ->
        unary_rejected (UnaryServerInterceptor T ctx req info h w) w) /\
     (forall md, incoming ctx = Some md ->
        md !! "authorization" = None \/ md !! "authorization" = Some [] ->
        unary_rejected (UnaryServerInterceptor T ctx req info h w) w) /\
     (forall md v rest, incoming ctx = Some md ->
        md !! "authorization" = Some (v :: rest) -> v <> T ->
        unary_rejected (UnaryServerInterceptor T ctx req info h w) w) /\
     (UnaryServerInterceptor T ctx req info (probe_unary (Resp:=Resp)) w
       = probe_unary ctx req w ->
        exists md rest, incoming ctx = Some md /\
                        md !! "authorization" = Some (T :: rest))) /\
    (* streaming path *)
    ((forall md rest, incoming (StreamContext ss) = Some md ->
        md !! "authorization" = Some (T :: rest) ->
        StreamServerInterceptor T srv ss sinfo sh w = sh srv ss w) /\
     (incoming (StreamContext ss) = None ->
        stream_rejected (StreamServerInterceptor T srv ss sinfo sh w) w) /\
     (forall md, incoming (StreamContext ss) = Some md ->
        md !! "authorization" = None \/ md !! "authorization" = Some [] ->
        stream_rejected (StreamServerInterceptor T srv ss sinfo sh w) w) /\
     (forall md v rest, incoming (StreamContext ss) = Some md ->
        md !! "authorization" = Some (v :: rest) -> v <> T ->
        stream_rejected (StreamServerInterceptor T srv ss sinfo sh w) w) /\
     (StreamServerInterceptor T srv ss sinfo probe_stream w = probe_stream srv ss w ->
        exists md rest, incoming (StreamContext ss) = Some md /\
                        md !! "authorization" = Some (T :: rest))).
Proof.
  intros T ctx req info h srv ss sinfo sh w HT. split.
  - repeat split.
    + intros md rest Hin Hmd. apply unary_accepts; [exact HT|].
      eapply presented_first; eassumption.
    + intros Hin. apply unary_rejects; [exact HT|].
      rewrite presented_no_metadata by exact Hin. discriminate.
    + intros md Hin Hmd. apply unary_rejects; [exact HT|].
      rewrite (presented_no_header ctx md Hin Hmd). discriminate.
    + intros md v rest Hin Hmd Hv. apply unary_rejects; [exact HT|].
      rewrite (presented_first ctx md v rest Hin Hmd). intros [= ->]. now apply Hv.
    + intros Hrun.
      destruct (unary_decision T ctx req info (probe_unary (Resp:=Resp)) w HT) as [[Hp _]|[_ Hr]].
      * apply presented_carries. exact Hp.
      * exfalso. eapply unary_rejected_not_probe; eassumption.
  - repeat split.
    + intros md rest Hin Hmd. apply stream_accepts; [exact HT|].
      eapply presented_first; eassumption.
    + intros Hin. apply stream_rejects; [exact HT|].
      rewrite presented_no_metadata by exact Hin. discriminate.
    + intros md Hin Hmd. apply stream_rejects; [exact HT|].
      rewrite (presented_no_header _ md Hin Hmd). discriminate.
    + intros md v rest Hin Hmd Hv. apply stream_rejects; [exact HT|].
      rewrite (presented_first _ md v rest Hin Hmd). intros [= ->]. now apply Hv.
    + intros Hrun.
      destruct (stream_decision T srv ss sinfo probe_stream w HT) as [[Hp _]|[_ Hr]].
      * apply presented_carries. exact Hp.
      * exfalso. eapply stream_rejected_not_probe; eassumption.
Qed.

(** C3: with the empty token configured nothing is checked: both server
    interceptors hand every call to the handler, whatever its metadata,
    and the client interceptor forwards the call with the context it was
    given. *)
Theorem empty_token_disables_auth :
  forall ctx (req : Req) (reply : Resp) (info : USI) (h : UnaryHandler W Req Resp)
         (srv : Srv) (ss : ServerStream) (sinfo : SSI) (sh : StreamHandler W Srv)
         method (cc : CC) (inv : UnaryInvoker W Req Resp CC CO) (opts : list CO) w,
    UnaryServerInterceptor EmptyString ctx req info h w = h ctx req w /\
    StreamServerInterceptor EmptyString srv ss sinfo sh w = sh srv ss w /\
    ClientInterceptor EmptyString ctx method req reply cc inv opts w
    = inv ctx method req reply cc opts w.
Proof. intros. repeat split. Qed.

(** C9: with a non-empty token configured and several values under
    "authorization", both server interceptors compare the first value
    only: when it differs from the token the call is refused as
    [Unauthenticated], also when a later value is the token; when it is
    the token the call goes to the handler, whatever follows. *)
Theorem only_first_authorization_value_counts :
  forall T ctx md v rest (req : Req) (info : USI) (h : UnaryHandler W Req Resp)
         (srv : Srv) (ss : ServerStream) (sinfo : SSI) (sh : StreamHandler W Srv) w,
    T <> EmptyString ->
    incoming ctx = Some md ->
    StreamContext ss = ctx ->
    md !! "authorization" = Some (v :: rest) ->
    (v <> T -> In T rest ->
       unary_rejected (UnaryServerInterceptor T ctx req info h w) w /\
       stream_rejected (StreamServerInterceptor T srv ss sinfo sh w) w) /\
    (v = T ->
       UnaryServerInterceptor T ctx req info h w = h ctx req w /\
       StreamServerInterceptor T srv ss sinfo sh w = sh srv ss w).
Proof.
  intros T ctx md v rest req info h srv ss sinfo sh w HT Hin Hss Hmd.
  pose proof (presented_first ctx md v rest Hin Hmd) as Hp.
  split.
  - intros Hv _.
    assert (Hne : presented ctx <> Some T) by (rewrite Hp; intros [= ->]; now apply Hv).
    split.
    + now apply unary_rejects.
    + apply stream_rejects; [exact HT|]. now rewrite Hss.
  - intros ->. split.
    + now apply unary_accepts.
    + apply stream_accepts; [exact HT|]. now rewrite Hss.
Qed.

(** C10: with a non-empty token configured, the client interceptor makes
    the call with a context whose outgoing metadata is a fresh map holding
    the key "authorization" and nothing else: whatever was attached to the
    outgoing context before, installed or appended, is gone. *)
Theorem client_replaces_outgoing_metadata :
  forall T ctx method (req : Req) (reply : Resp) (cc : CC)
         (inv : UnaryInvoker W Req Resp CC CO) (opts : list CO) w,
    T <> EmptyString ->
    exists ctx',
      ClientInterceptor T ctx method req reply cc inv opts w
      = inv ctx' method req reply cc opts w /\
      outgoing ctx' = Some {| md := {["authorization" := [T]]}; added := [] |} /\
      FromOutgoingContext ctx' = Some {["authorization" := [T]]} /\
      (forall sent k, FromOutgoingContext ctx' = Some sent ->
                      k <> "authorization" -> sent !! k = None) /\
      incoming ctx' = incoming ctx.
Proof.
  intros T ctx method req reply cc inv opts w HT.
  exists (NewOutgoingContext ctx {["authorization" := [T]]}).
  split; [now apply client_installs|].
  repeat split.
  intros sent k [= <-] Hk. now apply lookup_singleton_ne.
Qed.

End AuthProperties.

(** C8: with a non-empty token [T] configured, the client interceptor
    makes the call with outgoing metadata whose "authorization" value is
    [T] itself, nothing added and nothing stripped; a server configured
    with the same [T] that receives this value lets the call through, on
    the unary and on the streaming path. *)
Theorem client_token_passes_server :
  forall (W Req Resp CC CO : Type) T ctx method (req : Req) (reply : Resp) (cc : CC)
         (inv : auth.UnaryInvoker W Req Resp CC CO) (opts : list CO) (w : W),
    T <> EmptyString ->
    exists ctx' sent,
      auth.ClientInterceptor T ctx method req reply cc inv opts w
      = inv ctx' method req reply cc opts w /\
      grpc.FromOutgoingContext ctx' = Some sent /\
      grpc.Get sent "authorization" = [T] /\
      forall (SW SReq SResp Srv USI SSI : Type) sctx received
             (sreq : SReq) (info : USI) (h : auth.UnaryHandler SW SReq SResp)
             (srv : Srv) (ss : auth.ServerStream) (sinfo : SSI)
             (sh : auth.StreamHandler SW Srv) (w' : SW),
        grpc.incoming sctx = Some received ->
        auth.StreamContext ss = sctx ->
        received !! "authorization" = sent !! "authorization" ->
        auth.UnaryServerInterceptor T sctx sreq info h w' = h sctx sreq w' /\
        auth.StreamServerInterceptor T srv ss sinfo sh w' = sh srv ss w'.
Proof.
  intros W Req Resp CC CO T ctx method req reply cc inv opts w HT.
  exists (grpc.NewOutgoingContext ctx {["authorization" := [T]]}),
         {["authorization" := [T]]}.
  split; [now apply client_installs|].
  split; [reflexivity|].
  split; [rewrite Get_authorization, lookup_singleton_eq; reflexivity|].
  intros SW SReq SResp Srv USI SSI sctx received sreq info h srv ss sinfo sh w'
         Hin Hss Hrecv.
  rewrite lookup_singleton_eq in Hrecv.
  assert (Hp : auth.presented sctx = Some T) by (eapply presented_first; eassumption).
  split.
  - now apply unary_accepts.
  - apply stream_accepts; [exact HT|]. now rewrite Hss.
Qed.


Section AuthExamples.
Import grpc auth samples.

Lemma server_requires_exact_token_witness :
  serverToken <> EmptyString /\
  UnaryServerInterceptor serverToken (incoming_with [serverToken]) tt tt
    counting_unary 0%nat = (Ok tt, 1%nat) /\
  unary_rejected
    (UnaryServerInterceptor serverToken (incoming_with [wrongToken]) tt tt
       counting_unary 0%nat) 0%nat /\
  stream_rejected
    (StreamServerInterceptor serverToken tt
       {| StreamContext := incoming_without |} tt counting_stream 0%nat) 0%nat /\
  stream_rejected
    (StreamServerInterceptor serverToken tt
       {| StreamContext := no_metadata |} tt counting_stream 0%nat) 0%nat.
Proof.
  assert (HT : serverToken <> EmptyString) by discriminate.
  split; [exact HT|].
  split; [|split; [|split]].
  - destruct (server_requires_exact_token serverToken (incoming_with [serverToken])
                tt tt counting_unary tt {| StreamContext := no_metadata |} tt
                counting_stream 0%nat HT) as [[Hacc _] _].
    rewrite (Hacc {["authorization" := [serverToken]]} [] eq_refl eq_refl).
    reflexivity.
  - destruct (server_requires_exact_token serverToken (incoming_with [wrongToken])
                tt tt counting_unary tt {| StreamContext := no_metadata |} tt
                counting_stream 0%nat HT) as [[_ [_ [_ [Hrej _]]]] _].
    apply (Hrej {["authorization" := [wrongToken]]} wrongToken [] eq_refl eq_refl).
    discriminate.
  - destruct (server_requires_exact_token serverToken no_metadata
                tt tt counting_unary tt {| StreamContext := incoming_without |} tt
                counting_stream 0%nat HT) as [_ [_ [_ [Hrej _]]]].
    apply (Hrej {["user-agent" := ["grpc-go"]]} eq_refl). left. reflexivity.
  - destruct (server_requires_exact_token serverToken no_metadata
                tt tt counting_unary tt {| StreamContext := no_metadata |} tt
                counting_stream 0%nat HT) as [_ [_ [Hrej _]]].
    apply Hrej. reflexivity.
Defined.

(** No scheme is parsed and no letter case is folded: the bare secret
    does not match a token configured with its "Bearer " prefix, nor the
    other way round, nor a token in another case. *)
Example no_scheme_parsing :
  unary_rejected
    (UnaryServerInterceptor "Bearer abc" (incoming_with ["abc"]) tt tt
       counting_unary 0%nat) 0%nat /\
  unary_rejected
    (UnaryServerInterceptor "abc" (incoming_with ["Bearer abc"]) tt tt
       counting_unary 0%nat) 0%nat /\
  unary_rejected
    (UnaryServerInterceptor "Bearer abc" (incoming_with ["bearer abc"]) tt tt
       counting_unary 0%nat) 0%nat.
Proof. repeat split; eexists; reflexivity. Qed.

Lemma client_token_passes_server_witness :
  serverToken <> EmptyString /\
  exists sent,
    ClientInterceptor serverToken busy_client "GetStats" tt tt tt
      recording_invoker [] None = (None, Some sent) /\
    Get sent "authorization" = [serverToken] /\
    UnaryServerInterceptor serverToken
      {| incoming := Some sent; outgoing := None |} tt tt counting_unary 0%nat
    = (Ok tt, 1%nat) /\
    StreamServerInterceptor serverToken tt
      {| StreamContext := {| incoming := Some sent; outgoing := None |} |}
      tt counting_stream 0%nat
    = (None, 1%nat).
Proof.
  assert (HT : serverToken <> EmptyString) by discriminate.
  split; [exact HT|].
  destruct (client_token_passes_server _ _ _ _ _
              serverToken busy_client "GetStats" tt tt tt
              recording_invoker [] None HT)
    as (ctx' & sent & Hcall & Hsent & Hget & Hserver).
  exists sent.
  destruct (Hserver nat unit unit unit unit unit
              {| incoming := Some sent; outgoing := None |} sent tt tt
              counting_unary tt
              {| StreamContext := {| incoming := Some sent; outgoing := None |} |}
              tt counting_stream 0%nat eq_refl eq_refl eq_refl) as [Hu Hs].
  split; [|split; [exact Hget|split]].
  - rewrite Hcall. unfold recording_invoker. rewrite Hsent. reflexivity.
  - rewrite Hu. reflexivity.
  - rewrite Hs. reflexivity.
Defined.

Lemma only_first_authorization_value_counts_witness :
  serverToken <> EmptyString /\
  unary_rejected
    (UnaryServerInterceptor serverToken
       (incoming_with [wrongToken; serverToken]) tt tt counting_unary 0%nat)
    0%nat /\
  stream_rejected
    (StreamServerInterceptor serverToken tt
       {| StreamContext := incoming_with [wrongToken; serverToken] |}
       tt counting_stream 0%nat)
    0%nat /\
  UnaryServerInterceptor serverToken
    (incoming_with [serverToken; wrongToken]) tt tt counting_unary 0%nat
  = (Ok tt, 1%nat).
Proof.
  assert (HT : serverToken <> EmptyString) by discriminate.
  split; [exact HT|].
  destruct (only_first_authorization_value_counts serverToken
              (incoming_with [wrongToken; serverToken])
              {["authorization" := [wrongToken; serverToken]]}
              wrongToken [serverToken] tt tt counting_unary tt
              {| StreamContext := incoming_with [wrongToken; serverToken] |}
              tt counting_stream 0%nat HT eq_refl eq_refl eq_refl)
    as [Hrej _].
  destruct (only_first_authorization_value_counts serverToken
              (incoming_with [serverToken; wrongToken])
              {["authorization" := [serverToken; wrongToken]]}
              serverToken [wrongToken] tt tt counting_unary tt
              {| StreamContext := incoming_with [serverToken; wrongToken] |}
              tt counting_stream 0%nat HT eq_refl eq_refl eq_refl)
    as [_ Hacc].
  destruct Hrej as [Hu Hs]; [discriminate | left; reflexivity |].
  destruct (Hacc eq_refl) as [Ha _].
  split; [exact Hu|split; [exact Hs|]].
  rewrite Ha. reflexivity.
Defined.

Lemma client_replaces_outgoing_metadata_witness :
  serverToken <> EmptyString /\
  FromOutgoingContext busy_client
  = Some {["x-request-id" := ["42"]; "x-trace" := ["on"]]} /\
  ClientInterceptor serverToken busy_client "GetStats" tt tt tt
    recording_invoker [] None
  = (None, Some {["authorization" := [serverToken]]}).
Proof.
  assert (HT : serverToken <> EmptyString) by discriminate.
  split; [exact HT|].
  destruct (client_replaces_outgoing_metadata serverToken busy_client
              "GetStats" tt tt tt recording_invoker [] None HT)
    as (ctx' & Hcall & Hraw & Hsent & Honly & Hin).
  split.
  - vm_compute. reflexivity.
  - rewrite Hcall. unfold recording_invoker. rewrite Hsent. reflexivity.
Defined.

End AuthExamples.

(* ================================================================== *)
(** * Machine integers and strings *)
(* ================================================================== *)

Section IntProperties.
Import goint.

Lemma wrap64_small x : in_int64 x -> wrap64 x = x.
Proof.
  unfold in_int64, min_int64, max_int64, wrap64, wrap. intros H.
  rewrite Z.mod_small; lia.
Qed.

Lemma wrap64_range x : in_int64 (wrap64 x).
Proof.
  unfold in_int64, min_int64, max_int64, wrap64, wrap.
  pose proof (Z.mod_pos_bound (x + 2 ^ (64 - 1)) (2 ^ 64) ltac:(lia)). lia.
Qed.

Lemma wrap64_add_l a b : wrap64 (wrap64 a + b) = wrap64 (a + b).
Proof.
  unfold wrap64, wrap. f_equal.
  replace ((a + 2 ^ (64 - 1)) mod 2 ^ 64 - 2 ^ (64 - 1) + b + 2 ^ (64 - 1))
    with ((a + 2 ^ (64 - 1)) mod 2 ^ 64 + b) by lia.
  rewrite Zplus_mod_idemp_l. f_equal. lia.
Qed.

Lemma add_small a b : in_int64 (a + b) -> add a b = a + b.
Proof. apply wrap64_small. Qed.

Lemma add_comm a b : add a b = add b a.
Proof. unfold add. f_equal. lia. Qed.

(** Counting up from a wrapped number, once per element of a list. *)
Lemma fold_incr {A} (l : list A) x :
  fold_left (fun n _ => incr n) l (wrap64 x) = wrap64 (x + Z.of_nat (length l)).
Proof.
  revert x. induction l as [|a l IH]; intros x; simpl fold_left.
  - f_equal. simpl. lia.
  - unfold incr at 2, add. rewrite wrap64_add_l, IH. f_equal.
    rewrite length_cons. lia.
Qed.

End IntProperties.

Section StringProperties.
Import gostrings.

Lemma HasPrefix_spec s p :
  HasPrefix s p = true <-> exists post, s = p ++ post.
Proof.
  revert s. induction p as [|c p IH]; intros s; simpl.
  - split; [intros _; exists s; reflexivity | destruct s; reflexivity].
  - destruct s as [|d s].
    + split; [discriminate | intros [post H]; discriminate].
    + simpl. rewrite andb_true_iff, Ascii.eqb_eq, IH. split.
      * intros [-> [post ->]]. exists post. reflexivity.
      * intros [post [= -> ->]]. split; [reflexivity | exists post; reflexivity].
Qed.

Lemma Contains_unfold s sub :
  Contains s sub =
  if HasPrefix s sub then true
  else match s with
       | EmptyString => false
       | String _ s' => Contains s' sub
       end.
Proof. destruct s; reflexivity. Qed.

Lemma Contains_spec s sub :
  Contains s sub = true <-> exists pre post, s = pre ++ sub ++ post.
Proof.
  induction s as [|c s IH]; rewrite Contains_unfold.
  - destruct (HasPrefix EmptyString sub) eqn:Hp.
    + split; [intros _|reflexivity].
      apply HasPrefix_spec in Hp. destruct Hp as [post Hp].
      exists EmptyString, post. exact Hp.
    + split; [discriminate|]. intros (pre & post & H).
      destruct pre; [|discriminate]. simpl in H.
      assert (HasPrefix EmptyString sub = true) by (apply HasPrefix_spec; eauto).
      congruence.
  - destruct (HasPrefix (String c s) sub) eqn:Hp.
    + split; [intros _|reflexivity].
      apply HasPrefix_spec in Hp. destruct Hp as [post Hp].
      exists EmptyString, post. exact Hp.
    + rewrite IH. split.
      * intros (pre & post & ->). exists (String c pre), post. reflexivity.
      * intros (pre & post & H). destruct pre as [|d pre].
        -- simpl in H.
           assert (HasPrefix (String c s) sub = true) by (apply HasPrefix_spec; eauto).
           congruence.
        -- simpl in H. injection H as -> ->. eauto.
Qed.

Lemma ToLower_app a b : ToLower (a ++ b) = ToLower a ++ ToLower b.
Proof. induction a as [|c a IH]; simpl; [reflexivity | now rewrite IH]. Qed.

Lemma ToLower_split m a b :
  ToLower m = a ++ b -> exists x y, m = x ++ y /\ ToLower x = a /\ ToLower y = b.
Proof.
  revert m. induction a as [|c a IH]; intros m H; simpl in H.
  - exists EmptyString, m. repeat split. exact H.
  - destruct m as [|d m]; [discriminate|]. simpl in H. injection H as Hc Hm.
    destruct (IH m Hm) as (x & y & -> & Hx & Hy).
    exists (String d x), y. simpl. rewrite Hc, Hx. repeat split. exact Hy.
Qed.

End StringProperties.

(* ================================================================== *)
(** * Properties of the entities *)
(* ================================================================== *)

Section StatsProperties.
Import goint entity repository.

(** C4: the combined totals of a [Stats] are computed from its base and
    premium parts each time they are asked for: the total of the requests
    is the [int] sum of the two counts (their sum in the integers as long
    as it fits an [int]), the total of the tokens is the component-wise
    sum of the two [Token]s and the total cost is the sum of the two
    costs.  A [Stats] built by [NewStats] holds the six parts and the
    period and nothing else, so the totals are functions of the parts. *)
Theorem totals_computed_from_parts :
  forall s : Stats,
    TotalRequests s = add (BaseRequests s) (PremiumRequests s) /\
    (in_int64 (BaseRequests s + PremiumRequests s) ->
       TotalRequests s = BaseRequests s + PremiumRequests s) /\
    TotalTokens s = Token_Add (BaseTokens s) (PremiumTokens s) /\
    input (TotalTokens s) = add (input (BaseTokens s)) (input (PremiumTokens s)) /\
    output (TotalTokens s) = add (output (BaseTokens s)) (output (PremiumTokens s)) /\
    cacheRead (TotalTokens s)
      = add (cacheRead (BaseTokens s)) (cacheRead (PremiumTokens s)) /\
    cacheCreation (TotalTokens s)
      = add (cacheCreation (BaseTokens s)) (cacheCreation (PremiumTokens s)) /\
    TotalCost s = Cost_Add (BaseCost s) (PremiumCost s) /\
    Cost_Amount (TotalCost s)
      = (Cost_Amount (BaseCost s) + Cost_Amount (PremiumCost s))%float /\
    (forall br pr bt pt bc pc p,
       s = NewStats br pr bt pt bc pc p ->
       TotalRequests s = add br pr /\
       TotalTokens s = Token_Add bt pt /\
       TotalCost s = Cost_Add bc pc).
Proof.
  intros s. repeat split; try reflexivity.
  - intros H. unfold TotalRequests. now apply add_small.
  - subst s. reflexivity.
  - subst s. reflexivity.
  - subst s. reflexivity.
Qed.

(** The model classification: base iff some part of the name is "haiku"
    up to the case of its letters. *)
Lemma IsBase_spec (m : Model) :
  IsBase m = true <->
  exists pre mid post, m = pre ++ mid ++ post /\ gostrings.EqualFold mid "haiku".
Proof.
  unfold IsBase, gostrings.EqualFold. rewrite Contains_spec. split.
  - intros (pre' & post' & H).
    apply ToLower_split in H. destruct H as (pre & rest & -> & _ & Hrest).
    apply ToLower_split in Hrest. destruct Hrest as (mid & post & -> & Hmid & _).
    exists pre, mid, post. split; [reflexivity | exact Hmid].
  - intros (pre & mid & post & -> & Hmid).
    exists (gostrings.ToLower pre), (gostrings.ToLower post).
    rewrite !ToLower_app, Hmid. reflexivity.
Qed.

(** The loop of [GetStatsByPeriod] touches the variables of one tier only
    at the requests of that tier. *)
Lemma loop_base (requests : list APIRequest) (l : locals) :
  let l' := fold_left loop_body requests l in
  l_baseRequests l'
    = fold_left (fun n _ => incr n) (requests_of true requests) (l_baseRequests l) /\
  l_baseTokens l'
    = fold_left (fun t r => Token_Add t (tokens r)) (requests_of true requests)
        (l_baseTokens l) /\
  l_baseCost l'
    = fold_left (fun c r => Cost_Add c (cost r)) (requests_of true requests)
        (l_baseCost l).
Proof.
  revert l. induction requests as [|req requests IH]; intros l; simpl.
  - repeat split.
  - destruct (IH (loop_body l req)) as (Hn & Ht & Hc).
    rewrite Hn, Ht, Hc. unfold loop_body.
    destruct (IsBase (model req)); simpl; repeat split.
Qed.

Lemma loop_premium (requests : list APIRequest) (l : locals) :
  let l' := fold_left loop_body requests l in
  l_premiumRequests l'
    = fold_left (fun n _ => incr n) (requests_of false requests)
        (l_premiumRequests l) /\
  l_premiumTokens l'
    = fold_left (fun t r => Token_Add t (tokens r)) (requests_of false requests)
        (l_premiumTokens l) /\
  l_premiumCost l'
    = fold_left (fun c r => Cost_Add c (cost r)) (requests_of false requests)
        (l_premiumCost l).
Proof.
  revert l. induction requests as [|req requests IH]; intros l; simpl.
  - repeat split.
  - destruct (IH (loop_body l req)) as (Hn & Ht & Hc).
    rewrite Hn, Ht, Hc. unfold loop_body.
    destruct (IsBase (model req)); simpl; repeat split.
Qed.

Lemma count_from_zero {A} (l : list A) :
  fold_left (fun n _ => incr n) l 0 = wrap64 (Z.of_nat (length l)).
Proof. change 0 with (wrap64 0) at 1. now rewrite fold_incr. Qed.

(** Every request is of exactly one tier. *)
Lemma tiers_partition (requests : list APIRequest) :
  (length (requests_of true requests) + length (requests_of false requests)
   = length requests)%nat /\
  (forall r, In r requests <->
             In r (requests_of true requests) \/ In r (requests_of false requests)).
Proof.
  split.
  - induction requests as [|r requests IH]; simpl; [reflexivity|].
    destruct (IsBase (model r)); simpl; lia.
  - intros r. unfold requests_of. rewrite !filter_In.
    destruct (IsBase (model r)); simpl; tauto.
Qed.

(** C5: a model is base iff its name contains "haiku" compared without
    regard to case, and premium otherwise; the aggregation counts the
    requests and sums the tokens and the costs of each tier apart, by this
    classification, every request in exactly one tier; one base request (200/160/0/0, cost 0.01) and one
    premium request (666/500/0/0, cost 0.02) give one base request, one
    premium request and a total cost of 0.03. *)
Theorem stats_partition_by_model_class :
  forall (m : Model) (requests : list APIRequest) (p : Period),
    (IsBase m = true <->
       exists pre mid post,
         m = pre ++ mid ++ post /\ gostrings.EqualFold mid "haiku") /\
    IsPremium m = negb (IsBase m) /\
    (let s := GetStatsByPeriod requests p in
     BaseRequests s = count_requests (requests_of true requests) /\
     PremiumRequests s = count_requests (requests_of false requests) /\
     BaseTokens s = sum_tokens (requests_of true requests) /\
     PremiumTokens s = sum_tokens (requests_of false requests) /\
     BaseCost s = sum_costs (requests_of true requests) /\
     PremiumCost s = sum_costs (requests_of false requests)) /\
    (length (requests_of true requests) + length (requests_of false requests)
     = length requests)%nat /\
    (let s := GetStatsByPeriod [samples.baseRequest; samples.premiumRequest]
                samples.todayPeriod in
     BaseRequests s = 1 /\ PremiumRequests s = 1 /\
     BaseTokens s = NewToken 200 160 0 0 /\
     PremiumTokens s = NewToken 666 500 0 0 /\
     BaseCost s = NewCost samples.cost_0_01 /\
     PremiumCost s = NewCost samples.cost_0_02 /\
     TotalRequests s = 2 /\
     TotalCost s = NewCost samples.cost_0_03).
Proof.
  intros m requests p. split; [apply IsBase_spec|].
  split; [reflexivity|]. split; [|].
  - cbv zeta. unfold GetStatsByPeriod, NewStats, BaseRequests, PremiumRequests,
      BaseTokens, PremiumTokens, BaseCost, PremiumCost; simpl.
    destruct (loop_base requests locals_init) as (Hn & Ht & Hc).
    destruct (loop_premium requests locals_init) as (Hn' & Ht' & Hc').
    cbv zeta in *. rewrite Hn, Ht, Hc, Hn', Ht', Hc'. simpl.
    unfold count_requests. rewrite !count_from_zero. repeat split.
  - split; [apply tiers_partition|]. vm_compute. repeat split.
Qed.

End StatsProperties.

(* ================================================================== *)
(** * Properties of the block window *)
(* ================================================================== *)

Section BlockProperties.
Import gotime entity.

Lemma TimeBlockDuration_value : TimeBlockDuration = 18000000000000.
Proof. reflexivity. Qed.

(** [NextBlock] by cases on where [now] lies. *)
Lemma NextBlock_inside b now :
  StartAt b <= now < EndAt b -> NextBlock b now = b.
Proof.
  intros [H1 H2]. unfold NextBlock, Before.
  destruct (Z.ltb_spec now (StartAt b)); [lia|].
  destruct (Z.ltb_spec now (EndAt b)); [reflexivity | lia].
Qed.

Lemma NextBlock_outside b now :
  ~ (StartAt b <= now < EndAt b) ->
  NextBlock b now
  = mkBlock (StartAt b + Z.max 0 ((now - StartAt b) / TimeBlockDuration) * TimeBlockDuration)
            (tokenLimit b).
Proof.
  intros H. unfold NextBlock, Before.
  destruct (Z.ltb_spec now (StartAt b)); [reflexivity|].
  destruct (Z.ltb_spec now (EndAt b)); [lia | reflexivity].
Qed.

(** The number of whole durations from [startAt] to [now]. *)
Lemma whole_durations start now :
  let D := TimeBlockDuration in
  let k := Z.max 0 ((now - start) / D) in
  0 <= k /\
  now < start + (k + 1) * D /\
  (forall j, 0 <= j -> now < start + (j + 1) * D -> k <= j) /\
  (start <= now -> start + k * D <= now).
Proof.
  cbv zeta. rewrite TimeBlockDuration_value.
  set (D := 18000000000000).
  pose proof (Z.div_mod (now - start) D ltac:(subst D; lia)) as Hdm.
  pose proof (Z.mod_pos_bound (now - start) D ltac:(subst D; lia)) as Hr.
  set (q := (now - start) / D) in *.
  assert (HD : 0 < D) by (subst D; lia).
  repeat split.
  - lia.
  - destruct (Z.max_spec 0 q) as [[Hq ->]|[Hq ->]]; nia.
  - intros j Hj Hlt. destruct (Z.max_spec 0 q) as [[Hq ->]|[Hq ->]]; nia.
  - intros Hle. destruct (Z.max_spec 0 q) as [[Hq ->]|[Hq ->]]; nia.
Qed.

(** C1: a block holding [now] in [[startAt, startAt+duration)] is returned
    as it is; otherwise the result starts at [startAt + k*duration] for the
    smallest [k >= 0] with [now < startAt + (k+1)*duration].  The end of a
    block belongs to the next block, and a [now] many durations ahead is
    reached in one step: from Jan 1 10:00, Jan 2 08:00 gives the block
    from Jan 2 06:00 to Jan 2 11:00. *)
Theorem next_block_half_open_closed_form :
  forall (b : Block) (now : Time),
    let D := TimeBlockDuration in
    (StartAt b <= now < StartAt b + D -> NextBlock b now = b) /\
    (~ (StartAt b <= now < StartAt b + D) ->
       exists k,
         0 <= k /\
         StartAt (NextBlock b now) = StartAt b + k * D /\
         now < StartAt b + (k + 1) * D /\
         (forall j, 0 <= j -> now < StartAt b + (j + 1) * D -> k <= j)) /\
    (StartAt b + D <= now ->
       StartAt (NextBlock b now) = StartAt b + (now - StartAt b) / D * D /\
       StartAt (NextBlock b now) <= now < EndAt (NextBlock b now)) /\
    (StartAt (NextBlock b (EndAt b)) = EndAt b /\
     EndAt (NextBlock b (EndAt b)) = EndAt b + D) /\
    (let start := Date 2025 1 1 10 0 0 0 in
     let far := NextBlock (NewBlock start) (Date 2025 1 2 8 0 0 0) in
     StartAt far = Date 2025 1 2 6 0 0 0 /\ EndAt far = Date 2025 1 2 11 0 0 0).
Proof.
  intros b now D. split; [|split; [|split; [|split]]].
  - intros H. now apply NextBlock_inside.
  - intros H. rewrite (NextBlock_outside b now H).
    destruct (whole_durations (StartAt b) now) as (Hk & Hlt & Hmin & _).
    exists (Z.max 0 ((now - StartAt b) / TimeBlockDuration)).
    repeat split; assumption.
  - intros H. subst D.
    assert (Hout : ~ (StartAt b <= now < EndAt b))
      by (unfold EndAt, Add, StartAt in *; lia).
    rewrite (NextBlock_outside b now Hout).
    destruct (whole_durations (StartAt b) now) as (Hk & Hlt & _ & Hge).
    pose proof TimeBlockDuration_value as HD.
    assert (Hq : 0 <= (now - StartAt b) / TimeBlockDuration)
      by (apply Z.div_pos; lia).
    rewrite Z.max_r in * by exact Hq.
    assert (Hs : StartAt b <= now) by lia.
    specialize (Hge Hs).
    unfold EndAt, Add, StartAt in *; simpl. repeat split; lia.
  - subst D. assert (Hout : ~ (StartAt b <= EndAt b < EndAt b)) by lia.
    rewrite (NextBlock_outside b (EndAt b) Hout).
    pose proof TimeBlockDuration_value as HD.
    unfold EndAt, StartAt, Add; simpl.
    replace (block_startAt b + TimeBlockDuration - block_startAt b)
      with (1 * TimeBlockDuration) by lia.
    rewrite Z.div_mul by lia.
    rewrite Z.max_r by lia. split; lia.
  - vm_compute. split; reflexivity.
Qed.

(** The table of [TestBlock_NextBlock]. *)
Example TestBlock_NextBlock :
  let block := NewBlock (Date 2025 1 1 10 0 0 0) in
  let window b := (StartAt b, EndAt b) in
  window (NextBlock block (Date 2025 1 1 12 30 0 0))
    = (Date 2025 1 1 10 0 0 0, Date 2025 1 1 15 0 0 0) /\
  window (NextBlock block (Date 2025 1 1 15 0 0 0))
    = (Date 2025 1 1 15 0 0 0, Date 2025 1 1 20 0 0 0) /\
  window (NextBlock block (Date 2025 1 1 16 30 0 0))
    = (Date 2025 1 1 15 0 0 0, Date 2025 1 1 20 0 0 0) /\
  window (NextBlock block (Date 2025 1 2 8 0 0 0))
    = (Date 2025 1 2 6 0 0 0, Date 2025 1 2 11 0 0 0).
Proof. vm_compute. repeat split. Qed.

End BlockProperties.

(* ================================================================== *)
(** * Properties of the percentages *)
(* ================================================================== *)

Section FloatProperties.

(** Comparing the other way round gives the opposite answer. *)
Lemma SFcompare_antisym x y c :
  SFcompare x y = Some c -> SFcompare y x = Some (CompOpp c).
Proof.
  destruct x as [sx|sx| |sx mx ex], y as [sy|sy| |sy my ey]; simpl;
    try discriminate;
    try (intros [= <-];
         repeat match goal with s : bool |- _ => destruct s end; reflexivity).
  intros [= <-]. f_equal.
  destruct sx, sy; try reflexivity.
  - rewrite (Z.compare_antisym ex ey).
    destruct (ex ?= ey)%Z; simpl; try reflexivity.
    rewrite !Pos.compare_cont_antisym. reflexivity.
  - rewrite (Z.compare_antisym ex ey).
    destruct (ex ?= ey)%Z; simpl; try reflexivity.
    rewrite !Pos.compare_cont_antisym. reflexivity.
Qed.

Lemma SFcompare_None x y :
  SFcompare x y = None -> x = S754_nan \/ y = S754_nan.
Proof. destruct x, y; simpl; try discriminate; auto. Qed.

Lemma is_nan_false (x : float) : is_nan x = false -> Prim2SF x <> S754_nan.
Proof.
  unfold is_nan. rewrite negb_false_iff, FloatAxioms.eqb_spec. unfold SFeqb.
  intros H E. rewrite E in H. discriminate.
Qed.

(** Two numbers are ordered one way or the other. *)
Lemma not_ltb_leb (x y : float) :
  is_nan x = false -> is_nan y = false ->
  (x <? y)%float = false -> (y <=? x)%float = true.
Proof.
  intros Hx Hy. rewrite FloatAxioms.ltb_spec, FloatAxioms.leb_spec.
  unfold SFltb, SFleb.
  apply is_nan_false in Hx, Hy.
  destruct (SFcompare (Prim2SF x) (Prim2SF y)) as [c|] eqn:Hc.
  - rewrite (SFcompare_antisym _ _ _ Hc). destruct c; simpl; congruence.
  - apply SFcompare_None in Hc. tauto.
Qed.

(** The number of binary digits of a positive number. *)
Lemma digits2_pos_bounds p :
  2 ^ (Zpos (digits2_pos p) - 1) <= Zpos p < 2 ^ Zpos (digits2_pos p).
Proof.
  induction p as [p IH|p IH|]; simpl digits2_pos.
  - rewrite Pos2Z.inj_succ.
    replace (Z.succ (Zpos (digits2_pos p)) - 1) with (Z.succ (Zpos (digits2_pos p) - 1)) by lia.
    rewrite !Z.pow_succ_r by lia. lia.
  - rewrite Pos2Z.inj_succ.
    replace (Z.succ (Zpos (digits2_pos p)) - 1) with (Z.succ (Zpos (digits2_pos p) - 1)) by lia.
    rewrite !Z.pow_succ_r by lia. lia.
  - simpl. lia.
Qed.

Lemma digits2_pos_unique p d :
  2 ^ (d - 1) <= Zpos p < 2 ^ d -> Zpos (digits2_pos p) = d.
Proof.
  intros H. pose proof (digits2_pos_bounds p) as B.
  assert (0 < d).
  { destruct (Z.le_gt_cases d 0) as [Hd|Hd]; [|lia].
    assert (2 ^ d <= 2 ^ 0) by (apply Z.pow_le_mono_r; lia). simpl in *. lia. }
  destruct (Z.lt_trichotomy (Zpos (digits2_pos p)) d) as [Hlt|[Heq|Hgt]]; [|exact Heq|].
  - assert (2 ^ Zpos (digits2_pos p) <= 2 ^ (d - 1)) by (apply Z.pow_le_mono_r; lia). lia.
  - assert (2 ^ d <= 2 ^ (Zpos (digits2_pos p) - 1)) by (apply Z.pow_le_mono_r; lia). lia.
Qed.

(** Shifting a non-negative mantissa to the right halves it. *)
Lemma shr_1_m mrs : 0 <= shr_m mrs -> shr_m (shr_1 mrs) = shr_m mrs / 2.
Proof.
  destruct mrs as [m r s]. simpl. intros Hm.
  destruct m as [|[p|p|]|p]; simpl; try reflexivity; try lia.
  - rewrite Pos2Z.inj_xI. apply Z.div_unique with 1; lia.
  - rewrite Pos2Z.inj_xO. apply Z.div_unique with 0; lia.
Qed.

Lemma pow2_xI n : 2 ^ Zpos n~1 = 2 * (2 ^ Zpos n * 2 ^ Zpos n).
Proof.
  rewrite (Pos2Z.inj_xI n). replace (2 * Zpos n + 1) with (1 + (Zpos n + Zpos n)) by lia.
  do 2 rewrite Z.pow_add_r by lia. reflexivity.
Qed.

Lemma pow2_xO n : 2 ^ Zpos n~0 = 2 ^ Zpos n * 2 ^ Zpos n.
Proof.
  rewrite (Pos2Z.inj_xO n). replace (2 * Zpos n) with (Zpos n + Zpos n) by lia.
  rewrite Z.pow_add_r by lia. reflexivity.
Qed.

Lemma iter_shr_1_m n mrs :
  0 <= shr_m mrs -> shr_m (SpecFloat.iter_pos shr_1 n mrs) = shr_m mrs / 2 ^ Zpos n.
Proof.
  revert mrs. induction n as [n IH|n IH|]; intros mrs Hm; simpl SpecFloat.iter_pos.
  - assert (H1 : 0 <= shr_m (shr_1 mrs)) by (rewrite shr_1_m by lia; apply Z.div_pos; lia).
    assert (H2 : 0 <= shr_m (SpecFloat.iter_pos shr_1 n (shr_1 mrs)))
      by (rewrite IH by lia; apply Z.div_pos; lia).
    rewrite IH, IH, shr_1_m by lia.
    rewrite !Z.div_div by lia. rewrite pow2_xI. reflexivity.
  - assert (H2 : 0 <= shr_m (SpecFloat.iter_pos shr_1 n mrs))
      by (rewrite IH by lia; apply Z.div_pos; lia).
    rewrite IH, IH by lia.
    rewrite !Z.div_div by lia. rewrite pow2_xO. reflexivity.
  - rewrite shr_1_m by lia. reflexivity.
Qed.

(** Closes a goal [(if e <=? emax - prec then x else _) = x]. *)
Ltac leb_true :=
  match goal with
  | |- (if ?c then _ else _) = _ =>
      let Hc := fresh in
      assert (Hc : c = true) by (apply Z.leb_le; unfold emax, prec; lia);
      rewrite Hc; reflexivity
  end.

Lemma fexp64 x : fexp prec emax x = Z.max (x - 53) (-1074).
Proof. reflexivity. Qed.

Lemma shr_fexp_noshift m e l :
  Zdigits2 m = 53 -> -1074 <= e ->
  shr_fexp prec emax m e l = (shr_record_of_loc m l, e).
Proof.
  intros Hd He. unfold shr_fexp. rewrite fexp64, Hd.
  replace (Z.max (53 + e - 53) (-1074) - e) with 0 by lia. reflexivity.
Qed.

Lemma shr_fexp_shift m e l k :
  Zdigits2 m = 53 + Zpos k -> -1074 <= e ->
  shr_fexp prec emax m e l = (SpecFloat.iter_pos shr_1 k (shr_record_of_loc m l), e + Zpos k).
Proof.
  intros Hd He. unfold shr_fexp. rewrite fexp64, Hd.
  replace (Z.max (53 + Zpos k + e - 53) (-1074) - e) with (Zpos k) by lia. reflexivity.
Qed.

Lemma shr_m_of_loc m l : shr_m (shr_record_of_loc m l) = m.
Proof. destruct l as [|[]]; reflexivity. Qed.

Lemma loc_of_shr_record_of_loc m : loc_of_shr_record (shr_record_of_loc m loc_Exact) = loc_Exact.
Proof. reflexivity. Qed.

Lemma round_aux_53 s m e :
  Zpos (digits2_pos m) = 53 -> -1074 <= e <= 971 ->
  binary_round_aux prec emax s (Zpos m) e loc_Exact = S754_finite s m e.
Proof.
  intros Hd He. unfold binary_round_aux.
  rewrite shr_fexp_noshift by (simpl; lia). simpl.
  rewrite shr_fexp_noshift by (simpl; lia). simpl.
  leb_true.
Qed.

Lemma digits2_pos_iter_xO p k :
  Zpos (digits2_pos (Pos.iter xO p k)) = Zpos (digits2_pos p) + Zpos k.
Proof.
  induction k as [|k IH] using Pos.peano_ind.
  - simpl. lia.
  - rewrite Pos.iter_succ. simpl digits2_pos. rewrite Pos2Z.inj_succ, IH. lia.
Qed.

Lemma round_nearest_even_bounds m l :
  m <= round_nearest_even m l <= m + 1.
Proof.
  unfold round_nearest_even. destruct l as [|[]]; try lia.
  destruct (Z.even m); lia.
Qed.

(** An integer of at most 64 bits becomes a finite binary64 value. *)
Lemma binary_round_int s p :
  Zpos (digits2_pos p) <= 64 ->
  exists m e, binary_round prec emax s p 0 = S754_finite s m e /\
              Zpos (digits2_pos m) = 53 /\ -52 <= e <= 12.
Proof.
  intros Hd. pose proof (digits2_pos_bounds p) as Hp.
  set (d := Zpos (digits2_pos p)) in *.
  unfold binary_round. rewrite fexp64. fold d. unfold shl_align.
  destruct (Z.lt_trichotomy d 53) as [Hlt|[Heq|Hgt]].
  - (* fewer than 53 bits: shifted left, nothing is rounded *)
    replace (Z.max (d + 0 - 53) (-1074) - 0) with (Zneg (Z.to_pos (53 - d))) by lia.
    exists (Pos.iter xO p (Z.to_pos (53 - d))), (Z.max (d + 0 - 53) (-1074)).
    assert (Hdig : Zpos (digits2_pos (Pos.iter xO p (Z.to_pos (53 - d)))) = 53)
      by (rewrite digits2_pos_iter_xO; fold d; lia).
    split; [|split; [exact Hdig | lia]].
    apply round_aux_53; [exact Hdig | lia].
  - replace (Z.max (d + 0 - 53) (-1074) - 0) with 0 by lia.
    exists p, 0. split; [|split; [exact Heq | lia]].
    apply round_aux_53; [exact Heq | lia].
  - (* more than 53 bits: shifted right and rounded *)
    replace (Z.max (d + 0 - 53) (-1074) - 0) with (Zpos (Z.to_pos (d - 53))) by lia.
    set (k := Z.to_pos (d - 53)).
    assert (Hk : Zpos k = d - 53) by (subst k; lia).
    unfold binary_round_aux.
    assert (Hdk : Zdigits2 (Zpos p) = 53 + Zpos k)
      by (change (Zdigits2 (Zpos p)) with d; lia).
    rewrite (shr_fexp_shift (Zpos p) 0 loc_Exact k Hdk) by lia.
    set (mrs := SpecFloat.iter_pos shr_1 k (shr_record_of_loc (Zpos p) loc_Exact)).
    assert (Hm : shr_m mrs = Zpos p / 2 ^ Zpos k)
      by (subst mrs; rewrite iter_shr_1_m; simpl; [reflexivity | lia]).
    assert (Hpow : 2 ^ d = 2 ^ 53 * 2 ^ Zpos k)
      by (rewrite <- Z.pow_add_r by lia; f_equal; lia).
    assert (Hpow' : 2 ^ (d - 1) = 2 ^ 52 * 2 ^ Zpos k)
      by (rewrite <- Z.pow_add_r by lia; f_equal; lia).
    assert (Hk2 : 0 < 2 ^ Zpos k) by (apply Z.pow_pos_nonneg; lia).
    assert (Hlo : 2 ^ 52 <= shr_m mrs).
    { rewrite Hm. apply Z.div_le_lower_bound; [lia|]. rewrite Z.mul_comm. lia. }
    assert (Hhi : shr_m mrs < 2 ^ 53).
    { rewrite Hm. apply Z.div_lt_upper_bound; [lia|]. rewrite Z.mul_comm. lia. }
    pose proof (round_nearest_even_bounds (shr_m mrs) (loc_of_shr_record mrs)) as Hr.
    set (mr := round_nearest_even (shr_m mrs) (loc_of_shr_record mrs)) in *.
    destruct mr as [|q|q] eqn:Hq; try lia.
    destruct (Z.eq_dec (Zpos q) (2 ^ 53)) as [Htop|Hntop].
    + (* rounded up to the next power of two *)
      injection Htop as ->.
      rewrite (shr_fexp_shift _ _ loc_Exact 1) by (simpl; lia).
      simpl SpecFloat.iter_pos. cbn [shr_m shr_1 shr_record_of_loc].
      exists 4503599627370496%positive, (0 + Zpos k + 1).
      split; [|split; [reflexivity | lia]].
      leb_true.
    + assert (Hdq : Zpos (digits2_pos q) = 53)
        by (apply digits2_pos_unique; change (2 ^ (53 - 1)) with (2 ^ 52); lia).
      rewrite shr_fexp_noshift by (simpl; lia). simpl.
      exists q, (Zpos k). split; [|split; [exact Hdq | lia]].
      leb_true.
Qed.

Lemma valid_53 s m e :
  Zpos (digits2_pos m) = 53 -> -52 <= e <= 12 ->
  valid_binary (S754_finite s m e) = true.
Proof.
  intros Hd He. unfold SpecFloat.valid_binary, bounded, canonical_mantissa.
  rewrite fexp64, Hd. apply andb_true_intro. split.
  - apply Z.eqb_eq. lia.
  - apply Z.leb_le. unfold emax, prec. lia.
Qed.

Lemma digits2_pos_le p n : 0 <= n -> Zpos p < 2 ^ n -> Zpos (digits2_pos p) <= n.
Proof.
  intros Hn Hp. pose proof (digits2_pos_bounds p) as [Hlo _].
  destruct (Z.le_gt_cases (Zpos (digits2_pos p)) n) as [H|H]; [exact H|].
  assert (2 ^ n <= 2 ^ (Zpos (digits2_pos p) - 1)) by (apply Z.pow_le_mono_r; lia).
  lia.
Qed.

(** The conversion of a non-zero integer of at most 64 bits is a finite,
    non-zero number; the conversion of zero is zero. *)
Lemma Prim2SF_of_int_nonzero z :
  z <> 0 -> - 2 ^ 64 < z < 2 ^ 64 ->
  exists s m e, Prim2SF (gofloat.of_int z) = S754_finite s m e.
Proof.
  intros Hz Hr. unfold gofloat.of_int.
  destruct z as [|p|p]; [congruence| |]; simpl binary_normalize.
  - destruct (binary_round_int false p) as (m & e & Hb & Hd & He).
    { apply digits2_pos_le; lia. }
    rewrite Hb, Prim2SF_SF2Prim by (now apply valid_53). eauto.
  - destruct (binary_round_int true p) as (m & e & Hb & Hd & He).
    { apply digits2_pos_le; lia. }
    rewrite Hb, Prim2SF_SF2Prim by (now apply valid_53). eauto.
Qed.

Lemma Prim2SF_of_int_zero : Prim2SF (gofloat.of_int 0) = S754_zero false.
Proof. reflexivity. Qed.

(** Rounding a non-negative mantissa never gives a NaN. *)
Lemma shr_fexp_nonneg m e l :
  0 <= m -> 0 <= shr_m (fst (shr_fexp prec emax m e l)).
Proof.
  intros Hm. unfold shr_fexp, shr.
  destruct (fexp prec emax (Zdigits2 m + e) - e) as [|k|k]; simpl;
    rewrite ?iter_shr_1_m; rewrite ?shr_m_of_loc; try lia.
  apply Z.div_pos; [lia | apply Z.pow_pos_nonneg; lia].
Qed.

Lemma binary_round_aux_not_nan s mx ex lx :
  0 <= mx -> binary_round_aux prec emax s mx ex lx <> S754_nan.
Proof.
  intros Hm. unfold binary_round_aux.
  pose proof (shr_fexp_nonneg mx ex lx Hm) as H1.
  destruct (shr_fexp prec emax mx ex lx) as [mrs' e']. simpl in H1.
  pose proof (round_nearest_even_bounds (shr_m mrs') (loc_of_shr_record mrs')) as Hr.
  pose proof (shr_fexp_nonneg (round_nearest_even (shr_m mrs') (loc_of_shr_record mrs'))
                e' loc_Exact ltac:(lia)) as H2.
  destruct (shr_fexp prec emax _ e' loc_Exact) as [mrs'' e'']. simpl in H2.
  destruct (shr_m mrs'') as [|m|m]; [discriminate| |lia].
  destruct (e'' <=? emax - prec); discriminate.
Qed.

Lemma SFdiv_finite_not_nan x sy my ey :
  x <> S754_nan -> SF64div x (S754_finite sy my ey) <> S754_nan.
Proof.
  intros Hx. unfold SF64div, SFdiv.
  destruct x as [sx|sx| |sx mx ex]; try discriminate; [congruence|].
  unfold SFdiv_core_binary.
  set (m' := match _ with Z0 => _ | Zpos _ => _ | Zneg _ => _ end).
  assert (Hm' : 0 <= m').
  { subst m'. destruct (ex - ey - _); [lia | | lia].
    apply Z.shiftl_nonneg. lia. }
  pose proof (Z.div_pos m' (Zpos my) Hm' ltac:(lia)) as Hq.
  unfold Z.div in Hq. destruct (Z.div_eucl m' (Zpos my)) as [q r].
  now apply binary_round_aux_not_nan.
Qed.

Lemma SFmul_finite_not_nan x sy my ey :
  x <> S754_nan -> SF64mul x (S754_finite sy my ey) <> S754_nan.
Proof.
  intros Hx. unfold SF64mul, SFmul.
  destruct x as [sx|sx| |sx mx ex]; try discriminate; [congruence|].
  apply binary_round_aux_not_nan. lia.
Qed.

Lemma SFcompare_refl x : x <> S754_nan -> SFcompare x x = Some Eq.
Proof.
  destruct x as [s|s| |s m e]; simpl; intros H; try congruence.
  - destruct s; reflexivity.
  - rewrite Z.compare_refl, Pos.compare_cont_refl. destruct s; reflexivity.
Qed.

Lemma not_nan_is_nan (f : float) : Prim2SF f <> S754_nan -> is_nan f = false.
Proof.
  intros H. unfold is_nan. rewrite FloatAxioms.eqb_spec. unfold SFeqb.
  rewrite SFcompare_refl by exact H. reflexivity.
Qed.

(** A percentage of two integers is a number as soon as the divisor is
    not zero. *)
Lemma percentage_is_number u l :
  - 2 ^ 64 < u < 2 ^ 64 -> - 2 ^ 64 < l < 2 ^ 64 -> l <> 0 ->
  is_nan (gofloat.of_int u / gofloat.of_int l * 100)%float = false.
Proof.
  intros Hu Hl Hl0. apply not_nan_is_nan.
  rewrite FloatAxioms.mul_spec, FloatAxioms.div_spec.
  destruct (Prim2SF_of_int_nonzero l Hl0 Hl) as (sl & ml & el & ->).
  change (Prim2SF 100) with (S754_finite false 7036874417766400 (-46)).
  apply SFmul_finite_not_nan, SFdiv_finite_not_nan.
  destruct (Z.eq_dec u 0) as [->|Hu0].
  - rewrite Prim2SF_of_int_zero. discriminate.
  - destruct (Prim2SF_of_int_nonzero u Hu0 Hu) as (su & mu & eu & ->). discriminate.
Qed.

End FloatProperties.

Section ProgressProperties.
Import entity tui cli samples.

(** The bar percentage by cases on the raw progress. *)
Lemma bar_percentage_cases (block : Block) (blockStats : Stats) :
  let raw := CalculateProgress block (PremiumTokens blockStats) in
  ((100 <? raw)%float = true /\
   renderBlockProgress_percentage block blockStats = 100%float) \/
  ((100 <? raw)%float = false /\
   renderBlockProgress_percentage block blockStats = raw).
Proof.
  cbv zeta. unfold renderBlockProgress_percentage.
  destruct (100 <? CalculateProgress block (PremiumTokens blockStats))%float;
    [left | right]; split; reflexivity.
Qed.

(** The progress of a block with a limit is a number. *)
Lemma progress_is_number (block : Block) (tokens : Token) :
  HasLimit block = true -> TokenLimit block <= goint.max_int64 ->
  is_nan (CalculateProgress block tokens) = false.
Proof.
  unfold HasLimit, TokenLimit, CalculateProgress, goint.max_int64. intros Hl Hmax.
  apply Z.ltb_lt in Hl.
  pose proof (wrap64_range (input tokens + output tokens)) as Hu.
  unfold goint.in_int64, goint.min_int64, goint.max_int64 in Hu.
  apply percentage_is_number; unfold Token_Limited, goint.add; lia.
Qed.

(** C6: the progress of a block is the raw percentage, the tokens counted
    against the limit by the limit times 100, and is not clamped: it can
    exceed 100 (54250 tokens against a limit of 7000 are 775 percent).
    The percentage the renderer draws and prints is never greater than
    100: it is 100 when the raw value exceeds 100 and the raw value
    otherwise; it is at most 100 whenever the raw value is a number, which
    it is for every block that has a limit.  The format query shows
    percentages as they are: 775 percent for a monthly cost of 155 against
    the price 20 of the plan. *)
Theorem progress_raw_and_clamped_for_bar :
  forall (block : Block) (blockStats : Stats),
    let tokensUsed := PremiumTokens blockStats in
    let raw := CalculateProgress block tokensUsed in
    let shown := renderBlockProgress_percentage block blockStats in
    raw = (gofloat.of_int (Token_Limited tokensUsed)
           / gofloat.of_int (TokenLimit block) * 100)%float /\
    (100 <? shown)%float = false /\
    ((100 <? raw)%float = true -> shown = 100%float) /\
    ((100 <? raw)%float = false -> shown = raw) /\
    (is_nan raw = false -> (shown <=? 100)%float = true) /\
    (HasLimit block = true -> TokenLimit block <= goint.max_int64 ->
       is_nan raw = false /\ (shown <=? 100)%float = true) /\
    (let over := NewStats 0 1 (NewToken 0 0 0 0) (NewToken 50000 4250 900 30)
                   (NewCost 0) (NewCost 0) todayPeriod in
     let b := NewBlockWithLimit (gotime.Date 2025 1 1 10 0 0 0) 7000 in
     CalculateProgress b (PremiumTokens over) = 775%float /\
     renderBlockProgress_percentage b over = 100%float) /\
    MonthlyPlanUsage proPlan (repository.GetStatsByPeriod monthRequests monthPeriod)
    = 775.
Proof.
  intros block blockStats tokensUsed raw shown.
  split; [reflexivity|].
  assert (Hshown : (100 <? shown)%float = false /\
                   ((100 <? raw)%float = true -> shown = 100%float) /\
                   ((100 <? raw)%float = false -> shown = raw) /\
                   (is_nan raw = false -> (shown <=? 100)%float = true)).
  { destruct (bar_percentage_cases block blockStats) as [[Hlt Hs]|[Hlt Hs]];
      fold tokensUsed in Hlt, Hs; fold raw in Hlt, Hs; fold shown in Hs;
      rewrite Hs.
    - split; [reflexivity|]. split; [reflexivity|].
      split; [congruence | reflexivity].
    - split; [exact Hlt|]. split; [congruence|]. split; [reflexivity|].
      intros Hnan. apply not_ltb_leb; [reflexivity | exact Hnan | exact Hlt]. }
  destruct Hshown as (H1 & H2 & H3 & H4).
  split; [exact H1|]. split; [exact H2|]. split; [exact H3|]. split; [exact H4|].
  split; [|split].
  - intros Hl Hmax.
    pose proof (progress_is_number block tokensUsed Hl Hmax) as Hnum.
    fold raw in Hnum. split; [exact Hnum | exact (H4 Hnum)].
  - vm_compute. split; reflexivity.
  - vm_compute. reflexivity.
Qed.

(** C7: the sentinel plan "unset" carries the price zero, and the daily and
    the monthly usage percentage against it are zero whatever the requests
    of the period cost. *)
Theorem unset_plan_zero_usage :
  forall (dailyRequests monthlyRequests : list APIRequest)
         (dailyPeriod monthlyPeriod : Period) (daysInMonth : Z),
    Plan_Name UnsetPlan = "unset" /\
    Plan_Price UnsetPlan = NewCost 0 /\
    DailyPlanUsage UnsetPlan
      (repository.GetStatsByPeriod dailyRequests dailyPeriod) daysInMonth = 0 /\
    MonthlyPlanUsage UnsetPlan
      (repository.GetStatsByPeriod monthlyRequests monthlyPeriod) = 0 /\
    (forall (price : Cost) (s : Stats),
       DailyPlanUsage (NewPlan "unset" price) s daysInMonth = 0 /\
       MonthlyPlanUsage (NewPlan "unset" price) s = 0).
Proof. intros. repeat split. Qed.

(** The expectations of [TestFormatQueryEndToEnd] on the plan usage. *)
Example TestFormatQueryEndToEnd_plan_usage :
  let monthly := repository.GetStatsByPeriod monthRequests monthPeriod in
  let daily := repository.GetStatsByPeriod dayRequests dayPeriod in
  TotalCost daily = NewCost 15 /\
  TotalCost monthly = NewCost 155 /\
  MonthlyPlanUsage maxPlan monthly = 155 /\
  MonthlyPlanUsage max20Plan monthly = 77 /\
  MonthlyPlanUsage proPlan monthly = 775 /\
  DailyPlanUsage proPlan daily 31 = calculateExpectedDailyUsage 15 20 31 /\
  DailyPlanUsage UnsetPlan daily 31 = 0 /\
  MonthlyPlanUsage UnsetPlan monthly = 0.
Proof. vm_compute. repeat split. Qed.

End ProgressProperties.

Section Witnesses.
Import gotime entity goint samples.

Lemma next_block_half_open_closed_form_witness :
  let b := NewBlock (Date 2025 1 1 10 0 0 0) in
  NextBlock b (Date 2025 1 1 12 30 0 0) = b /\
  (exists k, 0 <= k /\
     StartAt (NextBlock b (Date 2025 1 1 15 0 0 0))
       = StartAt b + k * TimeBlockDuration /\
     Date 2025 1 1 15 0 0 0 < StartAt b + (k + 1) * TimeBlockDuration) /\
  StartAt (NextBlock b (Date 2025 1 2 8 0 0 0))
    <= Date 2025 1 2 8 0 0 0
    < EndAt (NextBlock b (Date 2025 1 2 8 0 0 0)).
Proof.
  intros b.
  destruct (next_block_half_open_closed_form b (Date 2025 1 1 12 30 0 0))
    as (Hin & _).
  destruct (next_block_half_open_closed_form b (Date 2025 1 1 15 0 0 0))
    as (_ & Hout & _).
  destruct (next_block_half_open_closed_form b (Date 2025 1 2 8 0 0 0))
    as (_ & _ & Hfar & _).
  split; [|split].
  - apply Hin. vm_compute. split; [discriminate | reflexivity].
  - destruct Hout as (k & Hk & Hstart & Hlt & _).
    + vm_compute. intros [_ H]. discriminate.
    + exists k. repeat split; assumption.
  - apply Hfar. vm_compute. discriminate.
Defined.

Lemma totals_computed_from_parts_witness :
  let s := NewStats 3 2 (NewToken 600 480 0 0) (NewToken 1332 1000 0 0)
             (NewCost 5) (NewCost 10) todayPeriod in
  in_int64 (BaseRequests s + PremiumRequests s) /\
  TotalRequests s = 5 /\
  TotalTokens s = NewToken 1932 1480 0 0 /\
  TotalCost s = NewCost 15.
Proof.
  intros s.
  assert (Hfit : in_int64 (BaseRequests s + PremiumRequests s))
    by (vm_compute; split; discriminate).
  destruct (totals_computed_from_parts s) as (_ & Hsum & Htok & _ & _ & _ & _ & Hcost & _).
  split; [exact Hfit|]. split; [|split].
  - rewrite (Hsum Hfit). reflexivity.
  - rewrite Htok. reflexivity.
  - rewrite Hcost. reflexivity.
Defined.

Lemma progress_raw_and_clamped_for_bar_witness :
  let over := NewStats 0 1 (NewToken 0 0 0 0) (NewToken 50000 4250 900 30)
                (NewCost 0) (NewCost 0) todayPeriod in
  let under := NewStats 0 1 (NewToken 0 0 0 0) (NewToken 3000 2600 900 30)
                 (NewCost 0) (NewCost 0) todayPeriod in
  let b := NewBlockWithLimit (Date 2025 1 1 10 0 0 0) 7000 in
  (100 <? CalculateProgress b (PremiumTokens over))%float = true /\
  tui.renderBlockProgress_percentage b over = 100%float /\
  (100 <? CalculateProgress b (PremiumTokens under))%float = false /\
  tui.renderBlockProgress_percentage b under = 80%float /\
  HasLimit b = true /\ TokenLimit b <= max_int64 /\
  is_nan (CalculateProgress b (PremiumTokens under)) = false /\
  (tui.renderBlockProgress_percentage b under <=? 100)%float = true.
Proof.
  intros over under b.
  destruct (progress_raw_and_clamped_for_bar b over) as (_ & _ & Hclamp & _).
  destruct (progress_raw_and_clamped_for_bar b under)
    as (_ & _ & _ & Hraw & _ & Hlim & _).
  assert (H1 : (100 <? CalculateProgress b (PremiumTokens over))%float = true)
    by (vm_compute; reflexivity).
  assert (H2 : (100 <? CalculateProgress b (PremiumTokens under))%float = false)
    by (vm_compute; reflexivity).
  assert (H3 : HasLimit b = true) by reflexivity.
  assert (H4 : TokenLimit b <= max_int64) by (vm_compute; discriminate).
  destruct (Hlim H3 H4) as [Hnum Hle].
  split; [exact H1|]. split; [exact (Hclamp H1)|]. split; [exact H2|].
  split; [rewrite (Hraw H2); vm_compute; reflexivity|].
  split; [exact H3|]. split; [exact H4|]. split; [exact Hnum | exact Hle].
Defined.

End Witnesses.

(* ================================================================== *)
(** * More on the interceptors *)
(* ================================================================== *)

Section MoreAuthProperties.
Import grpc auth.

Context {W Req Resp Srv USI SSI CC CO : Type}.

Implicit Types (ctx : Context) (md : MD) (T v : string) (w : W).

(** The three ways a call fails, on the metadata of its context. *)
Lemma incoming_cases T ctx :
  incoming ctx = None \/
  (exists md, incoming ctx = Some md /\ Get md "authorization" = []) \/
  (exists md v rest, incoming ctx = Some md /\
                     Get md "authorization" = v :: rest /\ v <> T) \/
  (exists md rest, incoming ctx = Some md /\ Get md "authorization" = T :: rest).
Proof.
  destruct (incoming ctx) as [md|]; [|left; reflexivity]. right.
  destruct (Get md "authorization") as [|v rest] eqn:Hg; [left; eauto|]. right.
  destruct (String.eqb_spec v T) as [->|Hv]; [right | left]; eauto 6.
Qed.

(** Two causes of a refusal never hold together. *)
Ltac one_cause H :=
  repeat match type of H with
         | exists _, _ => destruct H as [? H]
         | _ /\ _ => let H' := fresh in destruct H as [H' H]
         end;
  congruence.

(** An outcome goes with its cause and with no other. *)
Ltac cause_iff :=
  split;
  [ let E := fresh in intros E; first [ discriminate E | solve [eauto 8] ]
  | let Hcause := fresh in
    intros Hcause; first [ reflexivity | exfalso; one_cause Hcause ] ].

(** What the unary interceptor returns in each of the four cases. *)
Lemma unary_outcome T ctx (req : Req) (info : USI) (h : UnaryHandler W Req Resp) w :
  T <> EmptyString ->
  (incoming ctx = None ->
   UnaryServerInterceptor T ctx req info h w
   = (Err (Error Unauthenticated "missing metadata"), w)) /\
  (forall md, incoming ctx = Some md -> Get md "authorization" = [] ->
   UnaryServerInterceptor T ctx req info h w
   = (Err (Error Unauthenticated "missing authorization header"), w)) /\
  (forall md v rest, incoming ctx = Some md ->
   Get md "authorization" = v :: rest -> v <> T ->
   UnaryServerInterceptor T ctx req info h w
   = (Err (Error Unauthenticated "invalid authorization token"), w)) /\
  (forall md rest, incoming ctx = Some md ->
   Get md "authorization" = T :: rest ->
   UnaryServerInterceptor T ctx req info h w = h ctx req w).
Proof.
  intros HT. apply String.eqb_neq in HT.
  unfold UnaryServerInterceptor, FromIncomingContext. rewrite HT.
  repeat split.
  - intros ->. reflexivity.
  - intros md -> ->. reflexivity.
  - intros md v rest -> -> Hv. simpl.
    apply isValidAuth_false in Hv. rewrite Hv. reflexivity.
  - intros md rest -> ->. simpl.
    rewrite (proj2 (isValidAuth_true T T) eq_refl). reflexivity.
Qed.

Lemma stream_outcome T (srv : Srv) (ss : ServerStream) (info : SSI)
    (h : StreamHandler W Srv) w :
  T <> EmptyString ->
  (incoming (StreamContext ss) = None ->
   StreamServerInterceptor T srv ss info h w
   = (Some (Error Unauthenticated "missing metadata"), w)) /\
  (forall md, incoming (StreamContext ss) = Some md ->
   Get md "authorization" = [] ->
   StreamServerInterceptor T srv ss info h w
   = (Some (Error Unauthenticated "missing authorization header"), w)) /\
  (forall md v rest, incoming (StreamContext ss) = Some md ->
   Get md "authorization" = v :: rest -> v <> T ->
   StreamServerInterceptor T srv ss info h w
   = (Some (Error Unauthenticated "invalid authorization token"), w)) /\
  (forall md rest, incoming (StreamContext ss) = Some md ->
   Get md "authorization" = T :: rest ->
   StreamServerInterceptor T srv ss info h w = h srv ss w).
Proof.
  intros HT. apply String.eqb_neq in HT.
  unfold StreamServerInterceptor, FromIncomingContext. rewrite HT.
  repeat split.
  - intros ->. reflexivity.
  - intros md -> ->. reflexivity.
  - intros md v rest -> -> Hv. simpl.
    apply isValidAuth_false in Hv. rewrite Hv. reflexivity.
  - intros md rest -> ->. simpl.
    rewrite (proj2 (isValidAuth_true T T) eq_refl). reflexivity.
Qed.

(** X1: with a token configured, the message of the refusal names its
    cause, and only that cause produces it: "missing metadata" exactly for
    a call without metadata, "missing authorization header" exactly for
    metadata with no value under "authorization", "invalid authorization
    token" exactly for a first value that is not the token.  The handler
    here answers with a status of its own, so every refusal is the
    interceptor's. *)
Theorem refusal_message_names_cause :
  forall T ctx (req : Req) (info : USI) w,
    T <> EmptyString ->
    let result := UnaryServerInterceptor T ctx req info (probe_unary (Resp:=Resp)) w in
    (result = (Err (Error Unauthenticated "missing metadata"), w)
     <-> incoming ctx = None) /\
    (result = (Err (Error Unauthenticated "missing authorization header"), w)
     <-> exists md, incoming ctx = Some md /\ Get md "authorization" = []) /\
    (result = (Err (Error Unauthenticated "invalid authorization token"), w)
     <-> exists md v rest, incoming ctx = Some md /\
                           Get md "authorization" = v :: rest /\ v <> T) /\
    (result = probe_unary ctx req w
     <-> exists md rest, incoming ctx = Some md /\
                         Get md "authorization" = T :: rest).
Proof.
  intros T ctx req info w HT result.
  destruct (unary_outcome T ctx req info (probe_unary (Resp:=Resp)) w HT)
    as (H1 & H2 & H3 & H4).
  fold result in H1, H2, H3, H4.
  assert (Hprobe : probe_unary (Resp:=Resp) ctx req w = (Err (Error OK "handled"), w))
    by reflexivity.
  rewrite Hprobe in *.
  destruct (incoming_cases T ctx)
    as [Hc|[(md & Hc & Hg)|[(md & v & rest & Hc & Hg & Hv)|(md & rest & Hc & Hg)]]];
    [ rewrite (H1 Hc) | rewrite (H2 md Hc Hg)
    | rewrite (H3 md v rest Hc Hg Hv) | rewrite (H4 md rest Hc Hg) ];
    (split; [cause_iff | split; [cause_iff | split; [cause_iff | cause_iff]]]).
Qed.

(** X2: the unary and the streaming interceptor decide alike: for the same
    token and the same context either both call their handler, or both
    refuse with the same [Unauthenticated] status, message included. *)
Theorem unary_and_stream_decide_alike :
  forall T ctx (req : Req) (info : USI) (h : UnaryHandler W Req Resp)
         (srv : Srv) (ss : ServerStream) (sinfo : SSI) (sh : StreamHandler W Srv) w,
    StreamContext ss = ctx ->
    (UnaryServerInterceptor T ctx req info h w = h ctx req w /\
     StreamServerInterceptor T srv ss sinfo sh w = sh srv ss w) \/
    (exists st, code st = Unauthenticated /\
                UnaryServerInterceptor T ctx req info h w = (Err st, w) /\
                StreamServerInterceptor T srv ss sinfo sh w = (Some st, w)).
Proof.
  intros T ctx req info h srv ss sinfo sh w Hss.
  destruct (String.eqb_spec T EmptyString) as [->|HT].
  - left. split; reflexivity.
  - destruct (unary_outcome T ctx req info h w HT) as (U1 & U2 & U3 & U4).
    destruct (stream_outcome T srv ss sinfo sh w HT) as (S1 & S2 & S3 & S4).
    rewrite Hss in S1, S2, S3, S4.
    destruct (incoming_cases T ctx)
      as [Hc|[(md & Hc & Hg)|[(md & v & rest & Hc & Hg & Hv)|(md & rest & Hc & Hg)]]].
    + right. eexists. split; [|split; [apply U1 | apply S1]]; [reflexivity|..]; exact Hc.
    + right. eexists. split; [|split; [eapply U2 | eapply S2]]; [reflexivity|..]; eassumption.
    + right. eexists. split; [|split; [eapply U3 | eapply S3]]; [reflexivity|..]; eassumption.
    + left. split; [eapply U4 | eapply S4]; eassumption.
Qed.

End MoreAuthProperties.

(** X3: client and server end to end.  The server, configured with a
    token, receives under "authorization" what the client call carries
    there.  A client configured with the same token is let through on both
    paths; a client configured with another token is refused with
    "invalid authorization token"; a client without token whose context
    carries no outgoing metadata is refused with "missing authorization
    header". *)
Theorem client_server_end_to_end :
  forall (W Req Resp CC CO : Type) T1 T2 ctx method (req : Req) (reply : Resp)
         (cc : CC) (inv : auth.UnaryInvoker W Req Resp CC CO) (opts : list CO) (w : W),
    T2 <> EmptyString ->
    exists ctx',
      auth.ClientInterceptor T1 ctx method req reply cc inv opts w
      = inv ctx' method req reply cc opts w /\
      (T1 <> EmptyString ->
         grpc.FromOutgoingContext ctx' = Some {["authorization" := [T1]]}) /\
      (T1 = EmptyString -> ctx' = ctx) /\
      forall (SW SReq SResp Srv USI SSI : Type) sctx received
             (sreq : SReq) (info : USI) (h : auth.UnaryHandler SW SReq SResp)
             (srv : Srv) (ss : auth.ServerStream) (sinfo : SSI)
             (sh : auth.StreamHandler SW Srv) (w' : SW),
        grpc.incoming sctx = Some received ->
        auth.StreamContext ss = sctx ->
        received !! "authorization"
        = (grpc.FromOutgoingContext ctx' ≫= fun sent => sent !! "authorization") ->
        (T1 <> EmptyString -> T1 = T2 ->
           auth.UnaryServerInterceptor T2 sctx sreq info h w' = h sctx sreq w' /\
           auth.StreamServerInterceptor T2 srv ss sinfo sh w' = sh srv ss w') /\
        (T1 <> EmptyString -> T1 <> T2 ->
           auth.UnaryServerInterceptor T2 sctx sreq info h w'
           = (auth.Err (grpc.Error grpc.Unauthenticated "invalid authorization token"), w') /\
           auth.StreamServerInterceptor T2 srv ss sinfo sh w'
           = (Some (grpc.Error grpc.Unauthenticated "invalid authorization token"), w')) /\
        (T1 = EmptyString -> grpc.FromOutgoingContext ctx = None ->
           auth.UnaryServerInterceptor T2 sctx sreq info h w'
           = (auth.Err (grpc.Error grpc.Unauthenticated "missing authorization header"), w') /\
           auth.StreamServerInterceptor T2 srv ss sinfo sh w'
           = (Some (grpc.Error grpc.Unauthenticated "missing authorization header"), w')).
Proof.
  intros W Req Resp CC CO T1 T2 ctx method req reply cc inv opts w HT2.
  destruct (String.eqb_spec T1 EmptyString) as [->|HT1].
  - exists ctx. split; [reflexivity|]. split; [congruence|]. split; [reflexivity|].
    intros SW SReq SResp Srv USI SSI sctx received sreq info h srv ss sinfo sh w'
           Hin Hss Hrecv.
    split; [congruence|]. split; [congruence|]. intros _ Hnone.
    rewrite Hnone in Hrecv. simpl in Hrecv.
    assert (Hg : grpc.Get received "authorization" = [])
      by (rewrite Get_authorization, Hrecv; reflexivity).
    destruct (unary_outcome T2 sctx sreq info h w' HT2) as (_ & U2 & _).
    destruct (stream_outcome T2 srv ss sinfo sh w' HT2) as (_ & S2 & _).
    rewrite Hss in S2. split; [eapply U2 | eapply S2]; eassumption.
  - exists (grpc.NewOutgoingContext ctx {["authorization" := [T1]]}).
    split; [now apply client_installs|]. split; [reflexivity|]. split; [congruence|].
    intros SW SReq SResp Srv USI SSI sctx received sreq info h srv ss sinfo sh w'
           Hin Hss Hrecv.
    simpl in Hrecv. rewrite lookup_singleton_eq in Hrecv.
    assert (Hg : grpc.Get received "authorization" = [T1])
      by (rewrite Get_authorization, Hrecv; reflexivity).
    destruct (unary_outcome T2 sctx sreq info h w' HT2) as (_ & _ & U3 & U4).
    destruct (stream_outcome T2 srv ss sinfo sh w' HT2) as (_ & _ & S3 & S4).
    rewrite Hss in S3, S4.
    split; [|split; [|congruence]].
    + intros _ ->. split; [eapply U4 | eapply S4]; eassumption.
    + intros _ Hne. split; [eapply U3 | eapply S3]; eassumption.
Qed.

(** X4: client interceptors in a chain do not pile tokens up.  When the
    invoker of one interceptor is another one, the call goes out with the
    token of the inner interceptor alone if it has one, with the token of
    the outer one alone if only that has one, and with the context as it
    was if neither has. *)
Theorem chained_client_interceptors :
  forall (W Req Resp CC CO : Type) T1 T2 ctx method (req : Req) (reply : Resp)
         (cc : CC) (inv : auth.UnaryInvoker W Req Resp CC CO) (opts : list CO) (w : W),
    let inner : auth.UnaryInvoker W Req Resp CC CO :=
      fun c m rq rp conn o => auth.ClientInterceptor T2 c m rq rp conn inv o in
    exists ctx',
      auth.ClientInterceptor T1 ctx method req reply cc inner opts w
      = inv ctx' method req reply cc opts w /\
      grpc.incoming ctx' = grpc.incoming ctx /\
      (T2 <> EmptyString ->
         grpc.FromOutgoingContext ctx' = Some {["authorization" := [T2]]}) /\
      (T2 = EmptyString -> T1 <> EmptyString ->
         grpc.FromOutgoingContext ctx' = Some {["authorization" := [T1]]}) /\
      (T2 = EmptyString -> T1 = EmptyString -> ctx' = ctx).
Proof.
  intros W Req Resp CC CO T1 T2 ctx method req reply cc inv opts w inner.
  destruct (String.eqb_spec T1 EmptyString) as [->|HT1];
    destruct (String.eqb_spec T2 EmptyString) as [->|HT2].
  - exists ctx. repeat split; congruence.
  - exists (grpc.NewOutgoingContext ctx {["authorization" := [T2]]}).
    split; [|repeat split; congruence].
    change (auth.ClientInterceptor EmptyString ctx method req reply cc inner opts w)
      with (auth.ClientInterceptor T2 ctx method req reply cc inv opts w).
    now apply client_installs.
  - exists (grpc.NewOutgoingContext ctx {["authorization" := [T1]]}).
    split; [|repeat split; congruence].
    rewrite client_installs by exact HT1. reflexivity.
  - exists (grpc.NewOutgoingContext ctx {["authorization" := [T2]]}).
    split; [|repeat split; congruence].
    rewrite client_installs by exact HT1. subst inner. cbv beta.
    rewrite client_installs by exact HT2. reflexivity.
Qed.

(* ================================================================== *)
(** * More on the statistics *)
(* ================================================================== *)

Section MoreStatsProperties.
Import goint entity repository.

Lemma wrap64_add_r a b : wrap64 (a + wrap64 b) = wrap64 (a + b).
Proof. rewrite Z.add_comm, wrap64_add_l. f_equal. lia. Qed.

Lemma add_wrap64 a b : add (wrap64 a) (wrap64 b) = wrap64 (a + b).
Proof. unfold add. now rewrite wrap64_add_l, wrap64_add_r. Qed.

(** Where [int] addition leaves the integers. *)
Lemma wrap64_above x :
  max_int64 < x <= 2 * max_int64 + 1 -> wrap64 x = x - 2 ^ 64.
Proof.
  unfold max_int64, wrap64, wrap. intros Hx.
  replace (x + 2 ^ (64 - 1)) with ((x - 2 ^ 63) + 1 * 2 ^ 64) by lia.
  rewrite Z.mod_add by lia. rewrite Z.mod_small; lia.
Qed.

Lemma wrap64_below x :
  2 * min_int64 <= x < min_int64 -> wrap64 x = x + 2 ^ 64.
Proof.
  unfold min_int64, wrap64, wrap. intros Hx.
  replace (x + 2 ^ (64 - 1)) with ((x + 2 ^ 64 + 2 ^ 63) + (-1) * 2 ^ 64) by lia.
  rewrite Z.mod_add by lia. rewrite Z.mod_small; lia.
Qed.

(** The two counts of the aggregation. *)
Lemma stats_counts (requests : list APIRequest) (p : Period) :
  BaseRequests (GetStatsByPeriod requests p)
  = wrap64 (Z.of_nat (length (requests_of true requests))) /\
  PremiumRequests (GetStatsByPeriod requests p)
  = wrap64 (Z.of_nat (length (requests_of false requests))).
Proof.
  unfold GetStatsByPeriod, NewStats, BaseRequests, PremiumRequests; simpl.
  destruct (loop_base requests locals_init) as (Hn & _).
  destruct (loop_premium requests locals_init) as (Hn' & _).
  cbv zeta in *. rewrite Hn, Hn'. simpl. now rewrite !count_from_zero.
Qed.

Lemma requests_of_app b (l1 l2 : list APIRequest) :
  requests_of b (l1 ++ l2) = (requests_of b l1 ++ requests_of b l2)%list.
Proof. unfold requests_of. apply List.filter_app. Qed.

Lemma requests_of_length_perm b (l1 l2 : list APIRequest) :
  Permutation l1 l2 -> length (requests_of b l1) = length (requests_of b l2).
Proof.
  induction 1 as [|x l l' _ IH|x y l|l l' l'' _ IH1 _ IH2]; simpl.
  - reflexivity.
  - destruct (Bool.eqb (IsBase (model x)) b); simpl; congruence.
  - destruct (Bool.eqb (IsBase (model x)) b), (Bool.eqb (IsBase (model y)) b);
      reflexivity.
  - congruence.
Qed.

(** X5: the aggregation of the test repository counts every stored request
    exactly once, in one tier or the other, whatever the period asked for:
    the period is stamped on the result and selects nothing.  The total is
    the number of requests (as an [int]). *)
Theorem every_request_counted :
  forall (requests : list APIRequest) (p p' : Period),
    let s := GetStatsByPeriod requests p in
    TotalRequests s = wrap64 (Z.of_nat (length requests)) /\
    (Z.of_nat (length requests) <= max_int64 ->
       TotalRequests s = Z.of_nat (length requests) /\
       BaseRequests s + PremiumRequests s = Z.of_nat (length requests) /\
       0 <= BaseRequests s /\ 0 <= PremiumRequests s) /\
    Stats_Period s = p /\
    (let s' := GetStatsByPeriod requests p' in
     BaseRequests s' = BaseRequests s /\ PremiumRequests s' = PremiumRequests s /\
     BaseTokens s' = BaseTokens s /\ PremiumTokens s' = PremiumTokens s /\
     BaseCost s' = BaseCost s /\ PremiumCost s' = PremiumCost s).
Proof.
  intros requests p p' s.
  destruct (stats_counts requests p) as [Hb Hp]. fold s in Hb, Hp.
  destruct (tiers_partition requests) as [Hlen _].
  assert (Htotal : TotalRequests s = wrap64 (Z.of_nat (length requests))).
  { unfold TotalRequests. change (baseRequests s) with (BaseRequests s).
    change (premiumRequests s) with (PremiumRequests s).
    rewrite Hb, Hp, add_wrap64. f_equal. lia. }
  split; [exact Htotal|]. split; [|split; [reflexivity | repeat split]].
  intros Hfit.
  assert (Hin : forall n, (n <= length requests)%nat -> wrap64 (Z.of_nat n) = Z.of_nat n).
  { intros n Hn. apply wrap64_small. unfold in_int64, min_int64, max_int64 in *. lia. }
  rewrite Htotal, Hb, Hp, !Hin by lia. repeat split; lia.
Qed.

(** Saving, then aggregating: one more iteration of the loop. *)
Lemma GetStatsByPeriod_snoc (requests : list APIRequest) (req : APIRequest) p :
  GetStatsByPeriod (requests ++ [req]) p
  = let l := loop_body (fold_left loop_body requests locals_init) req in
    NewStats (l_baseRequests l) (l_premiumRequests l)
             (l_baseTokens l) (l_premiumTokens l)
             (l_baseCost l) (l_premiumCost l) p.
Proof. unfold GetStatsByPeriod. rewrite fold_left_app. reflexivity. Qed.

Lemma add_incr_l a b : add (incr a) b = incr (add a b).
Proof.
  unfold incr, add. rewrite !wrap64_add_l. f_equal. lia.
Qed.

Lemma add_incr_r a b : add a (incr b) = incr (add a b).
Proof.
  unfold incr, add. rewrite wrap64_add_r, wrap64_add_l. f_equal. lia.
Qed.

(** X6: [Save] composes with the aggregation.  [Save] never fails and puts
    the request after the ones already stored; the statistics after it are
    the statistics before it with the request added to its own tier (one
    more request, its tokens and its cost added) and the other tier
    untouched; the total of the requests goes up by one. *)
Theorem save_then_aggregate :
  forall (repo : mock.mockAuthTestRepository) (req : APIRequest) (p : Period),
    let repo' := fst (mock.Save repo req) in
    let s := fst (mock.GetStatsByPeriod repo p) in
    let s' := fst (mock.GetStatsByPeriod repo' p) in
    snd (mock.Save repo req) = None /\
    fst (mock.FindAll repo') = (fst (mock.FindAll repo) ++ [req])%list /\
    (IsBase (model req) = true ->
       BaseRequests s' = incr (BaseRequests s) /\
       BaseTokens s' = Token_Add (BaseTokens s) (tokens req) /\
       BaseCost s' = Cost_Add (BaseCost s) (cost req) /\
       PremiumRequests s' = PremiumRequests s /\
       PremiumTokens s' = PremiumTokens s /\
       PremiumCost s' = PremiumCost s) /\
    (IsBase (model req) = false ->
       PremiumRequests s' = incr (PremiumRequests s) /\
       PremiumTokens s' = Token_Add (PremiumTokens s) (tokens req) /\
       PremiumCost s' = Cost_Add (PremiumCost s) (cost req) /\
       BaseRequests s' = BaseRequests s /\
       BaseTokens s' = BaseTokens s /\
       BaseCost s' = BaseCost s) /\
    TotalRequests s' = incr (TotalRequests s).
Proof.
  intros repo req p repo' s s'.
  assert (Hs' : s' = GetStatsByPeriod (mock.requests repo ++ [req]) p) by reflexivity.
  rewrite GetStatsByPeriod_snoc in Hs'. cbv zeta in Hs'.
  assert (Hs : s = GetStatsByPeriod (mock.requests repo) p) by reflexivity.
  unfold GetStatsByPeriod in Hs. cbv zeta in Hs.
  set (l := fold_left loop_body (mock.requests repo) locals_init) in *.
  split; [reflexivity|]. split; [reflexivity|].
  unfold loop_body in Hs'.
  destruct (IsBase (model req)) eqn:Hb; rewrite Hs', Hs; simpl.
  - split; [intros _; repeat split|]. split; [discriminate|].
    unfold TotalRequests; simpl. apply add_incr_l.
  - split; [discriminate|]. split; [intros _; repeat split|].
    unfold TotalRequests; simpl. apply add_incr_r.
Qed.

(** X7: the counts do not depend on how the requests are stored.  The
    counts of two lists put end to end are the [int] sums of the counts of
    each, and two lists that hold the same requests in another order have
    the same counts. *)
Theorem counts_additive_and_order_free :
  forall (l1 l2 : list APIRequest) (p : Period),
    let s1 := GetStatsByPeriod l1 p in
    let s2 := GetStatsByPeriod l2 p in
    let s := GetStatsByPeriod (l1 ++ l2) p in
    (BaseRequests s = add (BaseRequests s1) (BaseRequests s2) /\
     PremiumRequests s = add (PremiumRequests s1) (PremiumRequests s2) /\
     TotalRequests s = add (TotalRequests s1) (TotalRequests s2)) /\
    (Permutation l1 l2 ->
       BaseRequests s1 = BaseRequests s2 /\
       PremiumRequests s1 = PremiumRequests s2 /\
       TotalRequests s1 = TotalRequests s2).
Proof.
  intros l1 l2 p s1 s2 s.
  destruct (stats_counts l1 p) as [Hb1 Hp1]. fold s1 in Hb1, Hp1.
  destruct (stats_counts l2 p) as [Hb2 Hp2]. fold s2 in Hb2, Hp2.
  destruct (stats_counts (l1 ++ l2) p) as [Hb Hp]. fold s in Hb, Hp.
  rewrite !requests_of_app, !length_app, !Nat2Z.inj_add in Hb, Hp.
  rewrite <- add_wrap64, <- Hb1, <- Hb2 in Hb.
  rewrite <- add_wrap64, <- Hp1, <- Hp2 in Hp.
  split.
  - split; [exact Hb|]. split; [exact Hp|].
    unfold TotalRequests.
    change (baseRequests s) with (BaseRequests s).
    change (premiumRequests s) with (PremiumRequests s).
    rewrite Hb, Hp. unfold BaseRequests, PremiumRequests, add.
    rewrite !wrap64_add_l, !wrap64_add_r. f_equal. lia.
  - intros Hperm.
    assert (B : BaseRequests s1 = BaseRequests s2)
      by (rewrite Hb1, Hb2, (requests_of_length_perm true l1 l2 Hperm); reflexivity).
    assert (P : PremiumRequests s1 = PremiumRequests s2)
      by (rewrite Hp1, Hp2, (requests_of_length_perm false l1 l2 Hperm); reflexivity).
    split; [exact B|]. split; [exact P|].
    unfold TotalRequests.
    change (baseRequests s1) with (BaseRequests s1).
    change (premiumRequests s1) with (PremiumRequests s1).
    change (baseRequests s2) with (BaseRequests s2).
    change (premiumRequests s2) with (PremiumRequests s2).
    now rewrite B, P.
Qed.

(** X8: [TotalRequests] at the bounds of [int].  For counts that are
    themselves [int]s the total is their sum when the sum fits; when the
    sum is too large the total is the sum less 2^64, a negative number,
    and when it is too small the sum plus 2^64. *)
Theorem total_requests_overflow :
  forall s : Stats,
    in_int64 (BaseRequests s) -> in_int64 (PremiumRequests s) ->
    let sum := BaseRequests s + PremiumRequests s in
    in_int64 (TotalRequests s) /\
    (in_int64 sum -> TotalRequests s = sum) /\
    (max_int64 < sum -> TotalRequests s = sum - 2 ^ 64 /\ TotalRequests s < 0) /\
    (sum < min_int64 -> TotalRequests s = sum + 2 ^ 64 /\ 0 <= TotalRequests s).
Proof.
  intros s Hb Hp sum. unfold TotalRequests, add.
  change (baseRequests s + premiumRequests s) with sum.
  unfold in_int64, min_int64, max_int64 in Hb, Hp.
  split; [apply wrap64_range|]. split; [apply wrap64_small|]. split.
  - intros Hover. unfold max_int64 in Hover.
    rewrite wrap64_above by (unfold max_int64; subst sum; lia). lia.
  - intros Hunder. unfold min_int64 in Hunder.
    rewrite wrap64_below by (unfold min_int64; subst sum; lia). lia.
Qed.

End MoreStatsProperties.

(* ================================================================== *)
(** * The renderer of the statistics *)
(* ================================================================== *)

Section RenderProperties.
Import goint goruntime entity render.

Context {Location : Type}.
Variable H : Helpers Location.

Implicit Types (vm : ViewModel Location) (now : gotime.Time) (block : Block).

Lemma append_assoc (a b c : string) : (a ++ b) ++ c = a ++ b ++ c.
Proof.
  induction a as [|x a IH]; [reflexivity|].
  change (String x ((a ++ b) ++ c) = String x (a ++ b ++ c)). now f_equal.
Qed.

Lemma SubSaturating_exact (t u : gotime.Time) :
  in_int64 (t - u) -> SubSaturating t u = t - u.
Proof. unfold SubSaturating, in_int64. lia. Qed.

Lemma timeRemaining_positive block now :
  0 < timeRemaining block now <-> now < EndAt block.
Proof.
  unfold timeRemaining, gotime.Before, SubSaturating, min_int64, max_int64.
  destruct (Z.ltb_spec now (EndAt block)); lia.
Qed.

(** X9: the time left in the block.  It is never negative; it is positive
    exactly when [now] is before the end of the block, and it is then the
    time to the end (as long as that fits a [time.Duration]).  Of the
    progress section only the last line depends on [now]: it shows the
    time left before the end of the block and "Block expired" from the end
    on. *)
Theorem time_remaining_or_expired :
  forall vm block now,
    vm_Block vm = Some block ->
    0 <= timeRemaining block now <= max_int64 /\
    (0 < timeRemaining block now <-> now < EndAt block) /\
    (now < EndAt block -> EndAt block - now <= max_int64 ->
       timeRemaining block now = EndAt block - now) /\
    exists before,
      forall now',
        renderBlockProgress H vm now'
        = Some (before
                ++ (if now' <? EndAt block
                    then HelpStyle_Render H
                           ("Time remaining: "
                            ++ FormatDurationFromTime H (timeRemaining block now'))
                    else HelpStyle_Render H "Block expired")).
Proof.
  intros vm block now Hblock.
  split; [|split; [apply timeRemaining_positive | split]].
  - unfold timeRemaining, gotime.Before, SubSaturating, min_int64, max_int64.
    destruct (Z.ltb_spec now (EndAt block)); lia.
  - intros Hlt Hfit. unfold timeRemaining, gotime.Before.
    destruct (Z.ltb_spec now (EndAt block)); [|lia].
    apply SubSaturating_exact. unfold in_int64, min_int64, max_int64 in *. lia.
  - set (pct := tui.renderBlockProgress_percentage block (vm_BlockStats vm)).
    set (header := HeaderStyle_Render H
                     ("Block Progress (" ++ FormatBlockTime H block (vm_Timezone vm) ++ ")")).
    set (bar := RenderProgressBar H pct 40).
    set (figures := StatStyle_Render H
                      (Sprintf_f H 1 pct ++ "% ("
                       ++ FormatTokenCount H (Token_Limited (PremiumTokens (vm_BlockStats vm)))
                       ++ "/" ++ FormatTokenCount H (TokenLimit block) ++ " tokens)")).
    exists (header ++ nl ++ nl ++ bar ++ " " ++ figures ++ nl).
    intros now'.
    assert (Hif : (0 <? timeRemaining block now') = (now' <? EndAt block)).
    { destruct (Z.ltb_spec now' (EndAt block)) as [Hl|Hl];
        [apply Z.ltb_lt | apply Z.ltb_ge];
        pose proof (timeRemaining_positive block now'); lia. }
    rewrite <- Hif. clear Hif.
    set (last := if 0 <? timeRemaining block now' then _ else _).
    unfold renderBlockProgress. rewrite Hblock.
    change (Some (header ++ nl ++ nl ++ bar ++ " " ++ figures ++ nl ++ last)
            = Some ((header ++ nl ++ nl ++ bar ++ " " ++ figures ++ nl) ++ last)).
    clearbody header bar figures last pct.
    rewrite !append_assoc. reflexivity.
Qed.

Lemma append_nil_r (a : string) : a ++ EmptyString = a.
Proof.
  induction a as [|x a IH]; [reflexivity|].
  change (String x (a ++ EmptyString) = String x a). now f_equal.
Qed.

(** A row is written exactly when every cell has its width. *)
Lemma writeRow_is_Some first other (colWidths : list Z) (row : list string) i :
  is_Some (writeRow H first other colWidths i row)
  <-> (row = [] \/ i + length row <= length colWidths)%nat.
Proof.
  revert i. induction row as [|cell rest IH]; intros i.
  - simpl. split; [left; reflexivity | eauto].
  - cbn [writeRow]. unfold index.
    destruct (colWidths !! i) as [width|] eqn:Hw; cbn [mbind option_bind].
    + apply lookup_lt_Some in Hw.
      destruct (writeRow H first other colWidths (S i) rest) as [written|] eqn:Hr;
        cbn [mbind option_bind].
      * split; [intros _; right | eauto].
        assert (Hs : is_Some (writeRow H first other colWidths (S i) rest))
          by (rewrite Hr; eauto).
        apply IH in Hs. destruct Hs as [->|Hs]; simpl in *; lia.
      * split; [intros [? [=]]|]. intros [[=]|Hlen]. simpl in Hlen.
        assert (Hs : is_Some (writeRow H first other colWidths (S i) rest))
          by (apply IH; right; lia).
        rewrite Hr in Hs. destruct Hs as [? [=]].
    + apply lookup_ge_None in Hw.
      split; [intros [? [=]]|]. intros [[=]|Hlen]. simpl in Hlen. lia.
Qed.

Lemma line_length : String.length "─" = 3%nat.
Proof. reflexivity. Qed.

Lemma Repeat_line_is_Some (width : Z) :
  is_Some (Repeat "─" width) <-> 0 <= width /\ 3 * width <= max_int64.
Proof.
  unfold Repeat. rewrite line_length.
  destruct (Z.ltb_spec width 0) as [Hn|Hn].
  - split; [intros [? [=]] | lia].
  - destruct (Z.ltb_spec max_int64 (Z.of_nat 3 * width)) as [Ho|Ho].
    + split; [intros [? [=]] | lia].
    + split; [lia | eauto].
Qed.

(** The separator is written exactly when every width can be repeated. *)
Lemma separator_is_Some (colWidths : list Z) :
  is_Some (separator colWidths)
  <-> Forall (fun width => 0 <= width /\ 3 * width <= max_int64) colWidths.
Proof.
  induction colWidths as [|width rest IH]; cbn [separator].
  - split; [constructor | eauto].
  - rewrite Forall_cons, <- IH, <- Repeat_line_is_Some.
    destruct (Repeat "─" width) as [line|]; cbn [mbind option_bind].
    + destruct (separator rest) as [written|]; cbn [mbind option_bind].
      * split; eauto.
      * split; [intros [? [=]] | intros [_ [? [=]]]].
    + split; [intros [? [=]] | intros [[? [=]] _]].
Qed.

Lemma renderBlockProgress_is_Some vm now :
  is_Some (renderBlockProgress H vm now) <-> is_Some (vm_Block vm).
Proof.
  unfold renderBlockProgress.
  destruct (vm_Block vm) as [block|]; cbn [mbind option_bind].
  - split; eauto.
  - split; intros [? [=]].
Qed.

Lemma blockSection_is_Some vm now : is_Some (blockSection H vm now).
Proof.
  unfold blockSection. destruct (vm_Block vm) as [block|] eqn:Hb; [|eauto].
  destruct (HasLimit block); [|eauto].
  destruct (proj2 (renderBlockProgress_is_Some vm now)) as [progress Hp];
    [rewrite Hb; eauto|].
  rewrite Hp. cbn [mbind option_bind]. eauto.
Qed.

(** Both layouts are a body, which the block has no part in, followed by
    the section of the block. *)
Lemma renderCompactStats_factor vm now :
  exists body,
    (forall vm', vm_Stats vm' = vm_Stats vm ->
       renderCompactStats H vm' now
       = (section ← blockSection H vm' now; Some (body ++ section))).
Proof.
  eexists. intros vm' Hstats. unfold renderCompactStats, blockSection.
  rewrite Hstats.
  set (body := _ ++ _).
  destruct (vm_Block vm') as [block|].
  - destruct (HasLimit block).
    + destruct (renderBlockProgress H vm' now) as [progress|];
        cbn [mbind option_bind]; reflexivity.
    + cbn [mbind option_bind]. now rewrite append_nil_r.
  - cbn [mbind option_bind]. reflexivity.
Qed.

Lemma renderStats_factor vm width now :
  exists body : Panics string,
    (forall vm', vm_Stats vm' = vm_Stats vm ->
       renderStats H vm' width now
       = (b ← body; section ← blockSection H vm' now; Some (b ++ section))).
Proof.
  destruct (Z.ltb_spec (sub width 6) 60) as [Hnarrow|Hwide].
  - destruct (renderCompactStats_factor vm now) as [body Hbody].
    exists (Some body). intros vm' Hstats. unfold renderStats.
    destruct (Z.ltb_spec (sub width 6) 60); [|lia].
    rewrite (Hbody vm' Hstats). reflexivity.
  - eexists
      (headerRow ← writeRow H (TableHeaderStyle_Render H) (TableHeaderStyle_Render H)
                    (CalculateStatsColumnWidths H (sub width 6)) 0
                    ["Model Tier"; "Reqs"; "Limited"; "Cache"; "Total"; "Cost ($)"];
       line1 ← separator (CalculateStatsColumnWidths H (sub width 6));
       baseRow ← writeRow H (fun cell => cell) (BaseStyle_Render H)
                   (CalculateStatsColumnWidths H (sub width 6)) 0
                   (tierRow H (BaseStyle_Bold_Render H "Base (Haiku)")
                      (BaseRequests (vm_Stats vm)) (BaseTokens (vm_Stats vm))
                      (BaseCost (vm_Stats vm)));
       premiumRow ← writeRow H (fun cell => cell) (PremiumStyle_Render H)
                      (CalculateStatsColumnWidths H (sub width 6)) 0
                      (tierRow H (PremiumStyle_Bold_Render H "Premium (S/O)")
                         (PremiumRequests (vm_Stats vm)) (PremiumTokens (vm_Stats vm))
                         (PremiumCost (vm_Stats vm)));
       line2 ← separator (CalculateStatsColumnWidths H (sub width 6));
       totalRow ← writeRow H (fun cell => cell) (StatStyle_Render H)
                    (CalculateStatsColumnWidths H (sub width 6)) 0
                    (tierRow H (StatStyle_Bold_Render H "Total")
                       (TotalRequests (vm_Stats vm)) (TotalTokens (vm_Stats vm))
                       (TotalCost (vm_Stats vm)));
       Some ((HeaderStyle_Render H "Usage Statistics" ++ nl ++ nl)
             ++ headerRow ++ nl ++ line1 ++ nl ++ baseRow ++ nl
             ++ premiumRow ++ nl ++ line2 ++ nl ++ totalRow)).
    intros vm' Hstats. unfold renderStats.
    destruct (Z.ltb_spec (sub width 6) 60); [lia|].
    rewrite Hstats.
    destruct (writeRow H (TableHeaderStyle_Render H) _ _ 0 _) as [headerRow|];
      [|reflexivity]; cbn [mbind option_bind].
    destruct (separator _) as [line|]; [|reflexivity]; cbn [mbind option_bind].
    destruct (writeRow H _ (BaseStyle_Render H) _ 0 _) as [baseRow|];
      [|reflexivity]; cbn [mbind option_bind].
    destruct (writeRow H _ (PremiumStyle_Render H) _ 0 _) as [premiumRow|];
      [|reflexivity]; cbn [mbind option_bind].
    destruct (writeRow H _ (StatStyle_Render H) _ 0 _) as [totalRow|];
      [|reflexivity]; cbn [mbind option_bind].
    set (body := _ ++ _).
    unfold blockSection.
    destruct (vm_Block vm') as [block|].
    + destruct (HasLimit block).
      * destruct (renderBlockProgress H vm' now) as [progress|];
          cbn [mbind option_bind]; reflexivity.
      * cbn [mbind option_bind]. now rewrite append_nil_r.
    + cbn [mbind option_bind]. reflexivity.
Qed.

Lemma tierRow_length label requests tokens cost :
  length (tierRow H label requests tokens cost) = 6%nat.
Proof. reflexivity. Qed.

(** X10: when rendering returns and when it panics.  The compact layout
    always returns, and so does [renderStats] for a narrow terminal, which
    hands over to it.  For a wide terminal [renderStats] returns exactly
    when the column widths are usable: at least six of them (fewer is an
    index out of range) and each one a count that [strings.Repeat]
    accepts (a negative one is a panic).  [renderBlockProgress] panics
    exactly when there is no block, and neither layout calls it then. *)
Theorem rendering_returns_or_panics :
  forall vm width now,
    is_Some (renderCompactStats H vm now) /\
    (sub width 6 < 60 ->
       renderStats H vm width now = renderCompactStats H vm now) /\
    (60 <= sub width 6 ->
       (is_Some (renderStats H vm width now)
        <-> usable_widths (CalculateStatsColumnWidths H (sub width 6)))) /\
    (is_Some (renderBlockProgress H vm now) <-> is_Some (vm_Block vm)).
Proof.
  intros vm width now.
  pose proof (blockSection_is_Some vm now) as [section Hsection].
  split; [|split; [|split; [|apply renderBlockProgress_is_Some]]].
  - destruct (renderCompactStats_factor vm now) as [body Hbody].
    rewrite (Hbody vm eq_refl), Hsection. cbn [mbind option_bind]. eauto.
  - intros Hnarrow. unfold renderStats.
    destruct (Z.ltb_spec (sub width 6) 60); [reflexivity | lia].
  - intros Hwide.
    destruct (renderStats_factor vm width now) as [body Hbody].
    pose proof (Hbody vm eq_refl) as Hvm. clear Hbody.
    unfold renderStats in Hvm.
    destruct (Z.ltb_spec (sub width 6) 60) as [|_]; [lia|].
    unfold renderStats.
    destruct (Z.ltb_spec (sub width 6) 60) as [|_]; [lia|].
    set (colWidths := CalculateStatsColumnWidths H (sub width 6)) in *.
    unfold usable_widths.
    rewrite <- separator_is_Some.
    pose proof (writeRow_is_Some (TableHeaderStyle_Render H) (TableHeaderStyle_Render H)
                  colWidths
                  ["Model Tier"; "Reqs"; "Limited"; "Cache"; "Total"; "Cost ($)"] 0)
      as Hheader.
    pose proof (fun first other label requests tokens cost =>
                  writeRow_is_Some first other colWidths
                    (tierRow H label requests tokens cost) 0) as Hrow.
    split.
    + intros Hsome.
      destruct (writeRow H (TableHeaderStyle_Render H) _ colWidths 0 _)
        as [headerRow|] eqn:Eh; [|destruct Hsome as [? [=]]].
      destruct (separator colWidths) as [line|] eqn:Es;
        [|destruct Hsome as [? [=]]].
      split; [|eauto].
      destruct Hheader as [Hh _]. destruct Hh as [[=]|Hlen]; [eauto|].
      simpl in Hlen. lia.
    + intros [Hlen Hsep].
      destruct Hheader as [_ Hh].
      destruct Hh as [headerRow ->]; [right; simpl; lia|].
      destruct Hsep as [line ->]. cbn [mbind option_bind].
      destruct (proj2 (Hrow (fun cell => cell) (BaseStyle_Render H)
                         (BaseStyle_Bold_Render H "Base (Haiku)")
                         (BaseRequests (vm_Stats vm)) (BaseTokens (vm_Stats vm))
                         (BaseCost (vm_Stats vm))))
        as [baseRow ->]; [right; rewrite tierRow_length; lia|].
      destruct (proj2 (Hrow (fun cell => cell) (PremiumStyle_Render H)
                         (PremiumStyle_Bold_Render H "Premium (S/O)")
                         (PremiumRequests (vm_Stats vm)) (PremiumTokens (vm_Stats vm))
                         (PremiumCost (vm_Stats vm))))
        as [premiumRow ->]; [right; rewrite tierRow_length; lia|].
      destruct (proj2 (Hrow (fun cell => cell) (StatStyle_Render H)
                         (StatStyle_Bold_Render H "Total")
                         (TotalRequests (vm_Stats vm)) (TotalTokens (vm_Stats vm))
                         (TotalCost (vm_Stats vm))))
        as [totalRow ->]; [right; rewrite tierRow_length; lia|].
      cbn [mbind option_bind].
      destruct (vm_Block vm) as [block|] eqn:Hb; [|eauto].
      destruct (HasLimit block); [|eauto].
      destruct (proj2 (renderBlockProgress_is_Some vm now)) as [progress ->];
        [rewrite Hb; eauto|].
      cbn [mbind option_bind]. eauto.
Qed.

(** X11: both layouts end alike.  What [renderStats] and
    [renderCompactStats] return is a body, made from the statistics
    without looking at the block, followed by the same section of the
    block: the hint to use the block option when there is no block,
    the progress of the block after an empty line when the block has a
    limit, and nothing when the block has no limit. *)
Theorem layouts_share_block_section :
  forall vm width now,
    exists (wide : Panics string) (compact : string),
      forall vm', vm_Stats vm' = vm_Stats vm ->
        renderStats H vm' width now
        = (b ← wide; section ← blockSection H vm' now; Some (b ++ section)) /\
        renderCompactStats H vm' now
        = (section ← blockSection H vm' now; Some (compact ++ section)) /\
        (vm_Block vm' = None ->
           blockSection H vm' now
           = Some (nl ++ nl ++ HelpStyle_Render H "Use -b 5am to track token limits")) /\
        (forall block, vm_Block vm' = Some block -> HasLimit block = false ->
           blockSection H vm' now = Some EmptyString) /\
        (forall block, vm_Block vm' = Some block -> HasLimit block = true ->
           exists progress,
             renderBlockProgress H vm' now = Some progress /\
             blockSection H vm' now = Some (nl ++ nl ++ progress)).
Proof.
  intros vm width now.
  destruct (renderStats_factor vm width now) as [wide Hwide].
  destruct (renderCompactStats_factor vm now) as [compact Hcompact].
  exists wide, compact. intros vm' Hstats.
  split; [now apply Hwide|]. split; [now apply Hcompact|].
  unfold blockSection. split; [|split].
  - intros ->. reflexivity.
  - intros block -> ->. reflexivity.
  - intros block Hb Hl.
    destruct (proj2 (renderBlockProgress_is_Some vm' now)) as [progress Hp];
      [rewrite Hb; eauto|].
    exists progress. rewrite Hb, Hl, Hp. split; reflexivity.
Qed.

End RenderProperties.

(* ================================================================== *)
(** * The helpers of the format query tests *)
(* ================================================================== *)

Section TestHelperProperties.
Import goint goruntime entity repository clitest samples.

Lemma february_length y :
  gotime.days_from_civil y 3 1 - gotime.days_from_civil y 2 1
  = if leap_year y then 29 else 28.
Proof.
  unfold gotime.days_from_civil, leap_year.
  change (3 <=? 2) with false. change (2 <=? 2) with true. cbv iota.
  change ((3 + 9) mod 12) with 0. change ((2 + 9) mod 12) with 11.
  change ((153 * 0 + 2) / 5) with 0. change ((153 * 11 + 2) / 5) with 337.
  destruct (Z.eqb_spec (y mod 4) 0), (Z.eqb_spec (y mod 100) 0),
           (Z.eqb_spec (y mod 400) 0);
    cbn [andb orb negb]; Z.div_mod_to_equations; lia.
Qed.

(** From the first day of a month to the first day of the next. *)
Lemma month_length y m :
  1 <= m <= 12 ->
  gotime.days_from_civil y (m + 1) 1 - gotime.days_from_civil y m 1
  = days_of_month y m.
Proof.
  intros Hm.
  assert (Hcases : m = 1 \/ m = 2 \/ m = 3 \/ m = 4 \/ m = 5 \/ m = 6 \/ m = 7 \/
                   m = 8 \/ m = 9 \/ m = 10 \/ m = 11 \/ m = 12) by lia.
  destruct Hcases as [->|[->|[->|[->|[->|[->|[->|[->|[->|[->|[->| ->]]]]]]]]]]];
    try apply february_length;
    unfold gotime.days_from_civil, days_of_month;
    repeat match goal with
           | |- context [?a <=? ?b] => destruct (Z.leb_spec a b); try lia
           | |- context [?a =? ?b] => destruct (Z.eqb_spec a b); try lia
           end;
    cbn [orb]; Z.div_mod_to_equations; lia.
Qed.

Lemma days_of_month_cases y m :
  days_of_month y m = 28 \/ days_of_month y m = 29 \/
  days_of_month y m = 30 \/ days_of_month y m = 31.
Proof.
  unfold days_of_month.
  destruct (m =? 2); [destruct (leap_year y); auto|].
  destruct ((m =? 4) || (m =? 6) || (m =? 9) || (m =? 11)); auto.
Qed.

(** X12: the days of the current month as [calculateExpectedDailyUsage]
    computes them are the days of the month of the calendar: 31, 30, or
    for February 28 and in a leap year 29.  For December the month after
    is month 13 of the year, which [time.Date] takes for January of the
    next. *)
Theorem days_in_month_is_calendar :
  forall year month,
    1 <= month <= 12 ->
    daysInMonth year month = days_of_month year month /\
    28 <= daysInMonth year month <= 31 /\
    gotime.Date year 13 1 0 0 0 0 = gotime.Date (year + 1) 1 1 0 0 0 0.
Proof.
  intros year month Hm.
  assert (Hdays : daysInMonth year month = days_of_month year month).
  { unfold daysInMonth.
    assert (Hdiff : gotime.Date year (month + 1) 1 0 0 0 0
                    - gotime.Date year month 1 0 0 0 0
                    = days_of_month year month * (24 * gotime.Hour)).
    { unfold gotime.Date. rewrite <- (month_length year month Hm). ring. }
    rewrite SubSaturating_exact; rewrite Hdiff.
    - destruct (days_of_month_cases year month) as [->|[->|[->| ->]]];
        vm_compute; reflexivity.
    - destruct (days_of_month_cases year month) as [->|[->|[->| ->]]];
        vm_compute; split; discriminate. }
  split; [exact Hdays|]. split.
  - rewrite Hdays. destruct (days_of_month_cases year month) as [->|[->|[->| ->]]]; lia.
  - unfold gotime.Date, gotime.days_from_civil.
    change (13 <=? 2) with false. change (1 <=? 2) with true. cbv iota.
    replace (year + 1 - 1) with year by lia. reflexivity.
Qed.



End TestHelperProperties.

(* ================================================================== *)
(** * The repository of the tests, and the names of the test requests *)
(* ================================================================== *)

Section MockProperties.
Import goint entity repository samples.

(** Saving the requests of a list one after the other. *)
Lemma save_all_requests (saved : list APIRequest) (repo : mock.mockAuthTestRepository) :
  mock.requests (fold_left (fun r req => fst (mock.Save r req)) saved repo)
  = (mock.requests repo ++ saved)%list.
Proof.
  revert repo. induction saved as [|req saved IH]; intros repo; simpl.
  - now rewrite app_nil_r.
  - rewrite IH. simpl. now rewrite <- app_assoc.
Qed.

(** X14: saving and reading back.  After the requests of a list have been
    saved one after the other, [FindAll] returns what was stored before
    followed by these requests in the order they were saved, and
    [FindByPeriodWithLimit] returns the same for every period, limit and
    offset: the test repository neither filters nor pages.
    [DeleteOlderThan] reports zero deletions and leaves everything in
    place.  None of them fails. *)
Theorem save_find_round_trip :
  forall (repo : mock.mockAuthTestRepository) (saved : list APIRequest)
         (p : Period) (limit offset : Z) (cutoff : gotime.Time),
    let repo' := fold_left (fun r req => fst (mock.Save r req)) saved repo in
    mock.FindAll repo' = ((mock.requests repo ++ saved)%list, None) /\
    mock.FindByPeriodWithLimit repo' p limit offset = mock.FindAll repo' /\
    mock.DeleteOlderThan repo' cutoff = (repo', (0, None)) /\
    mock.FindAll (fst (mock.DeleteOlderThan repo' cutoff)) = mock.FindAll repo' /\
    fst (mock.GetStatsByPeriod repo' p)
    = GetStatsByPeriod (mock.requests repo ++ saved) p.
Proof.
  intros repo saved p limit offset cutoff repo'.
  unfold mock.FindAll, mock.FindByPeriodWithLimit, mock.DeleteOlderThan,
    mock.GetStatsByPeriod. simpl.
  subst repo'. rewrite save_all_requests. repeat split.
Qed.

Lemma NoDup_map_injective {A B : Type} (f : A -> B) (l : list A) :
  (forall x y, f x = f y -> x = y) -> NoDup l -> NoDup (map f l).
Proof.
  intros Hf. induction 1 as [|x l Hx _ IH]; simpl; constructor; [|exact IH].
  rewrite list_elem_of_In, in_map_iff. intros (y & Hy & Hin). apply Hf in Hy. subst y.
  apply Hx. now apply list_elem_of_In.
Qed.

Lemma append_injective (a b c : string) : a ++ b = a ++ c -> b = c.
Proof.
  induction a as [|x a IH]; [trivial|].
  change (String x (a ++ b) = String x (a ++ c) -> b = c).
  intros [= E]. exact (IH E).
Qed.

Lemma numbered_NoDup (prefix : string) (n : nat) :
  NoDup (map (fun i : nat => prefix ++ pretty i) (seq 0 n)).
Proof.
  apply NoDup_map_injective.
  - intros x y E. apply append_injective in E. now apply (inj pretty).
  - apply NoDup_seq.
Qed.

Lemma numbered_apart (p1 p2 : string) (l1 l2 : list nat) (x : string) :
  (forall a b, p1 ++ a <> p2 ++ b) ->
  x ∈ map (fun i : nat => p1 ++ pretty i) l1 ->
  x ∉ map (fun i : nat => p2 ++ pretty i) l2.
Proof.
  intros Hp. rewrite !list_elem_of_In, !in_map_iff.
  intros (i & <- & _) (j & E & _). exact (Hp _ _ (eq_sym E)).
Qed.

(** The four prefixes of the generated names differ before they end. *)
Ltac prefixes_differ :=
  let E := fresh in intros ? ? E; cbn [String.append] in E; discriminate E.

(** X15: the session ids of the generated test requests are pairwise
    distinct: within a group the number tells them apart, and the groups
    have different prefixes.  No two of the requests collide on their
    session id. *)
Theorem generated_session_ids_distinct :
  forall (dailyBase dailyPremium monthlyBase monthlyPremium : nat)
         (c1 c2 c3 c4 : float) (today monthStart : gotime.Time),
    NoDup (map sessionID
             (createTestAPIRequestsForCurrentDate dailyBase dailyPremium
                monthlyBase monthlyPremium c1 c2 c3 c4 today monthStart)).
Proof.
  intros. unfold createTestAPIRequestsForCurrentDate.
  rewrite !map_app, !map_map. cbn [sessionID].
  assert (H12 : forall a b, "daily-base-" ++ a <> "daily-premium-" ++ b)
    by prefixes_differ.
  assert (H13 : forall a b, "daily-base-" ++ a <> "monthly-base-" ++ b)
    by prefixes_differ.
  assert (H14 : forall a b, "daily-base-" ++ a <> "monthly-premium-" ++ b)
    by prefixes_differ.
  assert (H23 : forall a b, "daily-premium-" ++ a <> "monthly-base-" ++ b)
    by prefixes_differ.
  assert (H24 : forall a b, "daily-premium-" ++ a <> "monthly-premium-" ++ b)
    by prefixes_differ.
  assert (H34 : forall a b, "monthly-base-" ++ a <> "monthly-premium-" ++ b)
    by prefixes_differ.
  repeat (apply NoDup_app; split; [apply numbered_NoDup | split]);
    try apply numbered_NoDup;
    intros x Hx; rewrite ?elem_of_app; intros Hin;
    repeat match type of Hin with
           | _ \/ _ => destruct Hin as [Hin|Hin]
           end;
    first [ exact (numbered_apart _ _ _ _ x H12 Hx Hin)
          | exact (numbered_apart _ _ _ _ x H13 Hx Hin)
          | exact (numbered_apart _ _ _ _ x H14 Hx Hin)
          | exact (numbered_apart _ _ _ _ x H23 Hx Hin)
          | exact (numbered_apart _ _ _ _ x H24 Hx Hin)
          | exact (numbered_apart _ _ _ _ x H34 Hx Hin) ].
Qed.

End MockProperties.

Section MoreWitnesses.
Import grpc auth goint goruntime entity repository render clitest samples samples_render.

Lemma refusal_message_names_cause_witness :
  serverToken <> EmptyString /\
  UnaryServerInterceptor serverToken (incoming_with [wrongToken]) tt tt
    (probe_unary (W:=nat) (Resp:=unit)) 0%nat
  = (Err (Error Unauthenticated "invalid authorization token"), 0%nat).
Proof.
  assert (HT : serverToken <> EmptyString) by discriminate.
  split; [exact HT|].
  destruct (refusal_message_names_cause (W:=nat) (Req:=unit) (Resp:=unit) (USI:=unit)
              serverToken (incoming_with [wrongToken]) tt tt 0%nat HT)
    as (_ & _ & [_ Hinvalid] & _).
  apply Hinvalid.
  exists {["authorization" := [wrongToken]]}, wrongToken, [].
  split; [reflexivity|]. split; [reflexivity | discriminate].
Defined.

Lemma unary_and_stream_decide_alike_witness :
  StreamContext {| StreamContext := incoming_without |} = incoming_without /\
  exists st,
    UnaryServerInterceptor serverToken incoming_without tt tt counting_unary 0%nat
    = (Err st, 0%nat) /\
    StreamServerInterceptor serverToken tt {| StreamContext := incoming_without |} tt
      counting_stream 0%nat
    = (Some st, 0%nat).
Proof.
  split; [reflexivity|].
  destruct (unary_and_stream_decide_alike serverToken incoming_without tt tt
              counting_unary tt {| StreamContext := incoming_without |} tt
              counting_stream 0%nat eq_refl)
    as [[Hu _]|(st & _ & Hu & Hs)].
  - exfalso. vm_compute in Hu. discriminate Hu.
  - exists st. split; assumption.
Defined.

Lemma client_server_end_to_end_witness :
  serverToken <> EmptyString /\
  ClientInterceptor wrongToken busy_client "GetStats" tt tt tt
    recording_invoker [] None
  = (None, Some {["authorization" := [wrongToken]]}) /\
  UnaryServerInterceptor serverToken (incoming_with [wrongToken]) tt tt
    counting_unary 0%nat
  = (Err (Error Unauthenticated "invalid authorization token"), 0%nat).
Proof.
  assert (HT : serverToken <> EmptyString) by discriminate.
  assert (HW : wrongToken <> EmptyString) by discriminate.
  split; [exact HT|].
  destruct (client_server_end_to_end _ _ _ _ _ wrongToken serverToken busy_client
              "GetStats" tt tt tt recording_invoker [] None HT)
    as (ctx' & Hcall & Hsent & _ & Hserver).
  specialize (Hsent HW).
  split.
  - rewrite Hcall. unfold recording_invoker. rewrite Hsent. reflexivity.
  - destruct (Hserver nat unit unit unit unit unit
                (incoming_with [wrongToken]) {["authorization" := [wrongToken]]}
                tt tt counting_unary tt
                {| StreamContext := incoming_with [wrongToken] |}
                tt counting_stream 0%nat eq_refl eq_refl)
      as (_ & Hmismatch & _).
    + rewrite Hsent. reflexivity.
    + apply Hmismatch; [exact HW | discriminate].
Defined.

Lemma total_requests_overflow_witness :
  let s := NewStats max_int64 1 (NewToken 0 0 0 0) (NewToken 0 0 0 0)
             (NewCost 0) (NewCost 0) todayPeriod in
  in_int64 (BaseRequests s) /\ in_int64 (PremiumRequests s) /\
  max_int64 < BaseRequests s + PremiumRequests s /\
  TotalRequests s = min_int64.
Proof.
  intros s.
  assert (Hb : in_int64 (BaseRequests s)) by (vm_compute; split; discriminate).
  assert (Hp : in_int64 (PremiumRequests s)) by (vm_compute; split; discriminate).
  assert (Hover : max_int64 < BaseRequests s + PremiumRequests s)
    by (vm_compute; reflexivity).
  destruct (total_requests_overflow s Hb Hp) as (_ & _ & Hhigh & _).
  destruct (Hhigh Hover) as [Heq _].
  split; [exact Hb|]. split; [exact Hp|]. split; [exact Hover|].
  rewrite Heq. reflexivity.
Defined.

Lemma time_remaining_or_expired_witness :
  vm_Block blockView = Some morningBlock /\
  timeRemaining morningBlock (gotime.Date 2025 1 1 12 30 0 0) = 150 * gotime.Minute /\
  exists before,
    renderBlockProgress plainHelpers blockView (gotime.Date 2025 1 1 15 0 0 0)
    = Some (before ++ "Block expired") /\
    renderBlockProgress plainHelpers blockView (gotime.Date 2025 1 1 12 30 0 0)
    = Some (before ++ "Time remaining: 150m").
Proof.
  split; [reflexivity|].
  destruct (time_remaining_or_expired plainHelpers blockView morningBlock
              (gotime.Date 2025 1 1 12 30 0 0) eq_refl)
    as (_ & _ & Hleft & before & Hlast).
  split.
  - rewrite Hleft; vm_compute; [reflexivity | reflexivity | discriminate].
  - exists before. split.
    + rewrite (Hlast (gotime.Date 2025 1 1 15 0 0 0)). reflexivity.
    + rewrite (Hlast (gotime.Date 2025 1 1 12 30 0 0)). reflexivity.
Defined.

Lemma days_in_month_is_calendar_witness :
  1 <= 2 <= 12 /\
  daysInMonth 2024 2 = 29 /\ daysInMonth 2025 2 = 28 /\ daysInMonth 1900 2 = 28.
Proof.
  assert (Hm : 1 <= 2 <= 12) by lia.
  split; [exact Hm|].
  destruct (days_in_month_is_calendar 2024 2 Hm) as [H24 _].
  destruct (days_in_month_is_calendar 2025 2 Hm) as [H25 _].
  destruct (days_in_month_is_calendar 1900 2 Hm) as [H19 _].
  rewrite H24, H25, H19. repeat split.
Defined.

End MoreWitnesses.
